(** * recently_played: a shallow embedding of the ETL pipeline

    The module [recently_played.py] extracts the plays of the current day
    from the streaming service, flattens them into a four-column table,
    gates the table on three data-quality checks and appends it to a
    SQLite table keyed by [played_at].

    Python values are embedded as follows.
    - Text is [string]; every [ascii] stands for one character (code points
      below 256, where the only decimal digits are '0'..'9').
    - A table cell is a [cell]: [None] is the null value ([None]/NaN in
      pandas), [Some s] a text value.  The empty text [Some EmptyString] is
      a value, not a null.
    - A raised exception is a value of [exn]; a call that may raise returns
      a [result].
    - Everything that prints, or touches the database, runs in the monad
      [M] over the [World]. *)

From Stdlib Require Import String Ascii List ZArith Bool Lia Permutation.
Import ListNotations.
Local Open Scope string_scope.
Local Open Scope Z_scope.

(** ** Exceptions and results *)

(** [Raised cls msg] is [raise cls(msg)] written in the module itself;
    [LibraryError cls] is an exception of class [cls] raised inside a
    library call (its message is the library's and is not modelled). *)
Inductive exn : Type :=
| Raised (cls msg : string)
| LibraryError (cls : string).

Definition class_of (e : exn) : string :=
  match e with
  | Raised cls _ => cls
  | LibraryError cls => cls
  end.

Inductive result (A : Type) : Type :=
| Ok (a : A)
| Raise (e : exn).
Arguments Ok {A} a.
Arguments Raise {A} e.

(** Lines 16-25: the three exception classes the module declares. *)
Definition PrimaryKeyError (msg : string) : exn := Raised "PrimaryKeyError" msg.
Definition NullValuesError (msg : string) : exn := Raised "NullValuesError" msg.
Definition InvalidTimestampError (msg : string) : exn :=
  Raised "InvalidTimestampError" msg.
(** The built-in [ValueError], when the module raises it (line 49). *)
Definition ValueError (msg : string) : exn := Raised "ValueError" msg.

Definition raises {A} (r : result A) (cls : string) : Prop :=
  exists e, r = Raise e /\ class_of e = cls.

(** ** Tables *)

Definition cell : Type := option string.

Definition cell_eqb (a b : cell) : bool :=
  match a, b with
  | None, None => true
  | Some x, Some y => String.eqb x y
  | _, _ => false
  end.

(** One row of the frame; the fields are the frame's columns. *)
Record Row : Type := mkRow {
  song_name : cell;
  artist_name : cell;
  played_at : cell;
  timestamp : cell
}.

Definition DataFrame : Type := list Row.

(** The [columns=] argument of line 88. *)
Definition columns : list string :=
  ["song_name"; "artist_name"; "played_at"; "timestamp"].

Definition row_cells (r : Row) : list cell :=
  [song_name r; artist_name r; played_at r; timestamp r].

(** [df.empty] *)
Definition empty (df : DataFrame) : bool :=
  match df with
  | [] => true
  | _ :: _ => false
  end.

(** [pd.Series(col).is_unique]: no value occurs twice (two nulls count as
    the same value). *)
Fixpoint is_unique (col : list cell) : bool :=
  match col with
  | [] => true
  | c :: cs => negb (existsb (cell_eqb c) cs) && is_unique cs
  end.

(** [pd.isnull] on one cell, and [df.isnull().values.any()]. *)
Definition isnull (c : cell) : bool :=
  match c with
  | None => true
  | Some _ => false
  end.

Definition isnull_values_any (df : DataFrame) : bool :=
  existsb (fun r => existsb isnull (row_cells r)) df.

(** ** Dates *)

Record datetime : Type := mkDatetime {
  year : Z; month : Z; day : Z;
  hour : Z; minute : Z; second : Z; microsecond : Z
}.

Definition datetime_eqb (a b : datetime) : bool :=
  (year a =? year b) && (month a =? month b) && (day a =? day b) &&
  (hour a =? hour b) && (minute a =? minute b) && (second a =? second b) &&
  (microsecond a =? microsecond b).

(** [d.replace(hour=0, minute=0, second=0, microsecond=0)] *)
Definition replace_midnight (d : datetime) : datetime :=
  mkDatetime (year d) (month d) (day d) 0 0 0 0.

Definition is_leap (y : Z) : bool :=
  (y mod 4 =? 0) && (negb (y mod 100 =? 0) || (y mod 400 =? 0)).

Definition days_in_month (y m : Z) : Z :=
  if m =? 2 then (if is_leap y then 29 else 28)
  else if (m =? 4) || (m =? 6) || (m =? 9) || (m =? 11) then 30
  else 31.

(** *** [datetime.strptime(ts, "%Y-%m-%d")]

    The format compiles to the regular expression
    [(\d\d\d\d)-(1[0-2]|0[1-9]|[1-9])-(3[0-1]|[1-2]\d|0[1-9]|[1-9]| [1-9])],
    matched at the start of the text; alternatives are tried in order with
    backtracking, the match must consume the whole text, and the three
    numbers must form a date of the calendar (years 1 to 9999). *)

Definition is_digit (c : ascii) : bool :=
  let n := nat_of_ascii c in (48 <=? n)%nat && (n <=? 57)%nat.

Definition digit_val (c : ascii) : Z := Z.of_nat (nat_of_ascii c) - 48.

Definition in_range (lo hi : Z) (c : ascii) : bool :=
  is_digit c && (lo <=? digit_val c) && (digit_val c <=? hi).

Definition dash : ascii := "-"%char.
Definition space : ascii := " "%char.

(** [\d\d\d\d]: the year and the rest of the text. *)
Definition match_year (s : list ascii) : option (Z * list ascii) :=
  match s with
  | a :: b :: c :: d :: rest =>
      if is_digit a && is_digit b && is_digit c && is_digit d
      then Some (1000 * digit_val a + 100 * digit_val b
                 + 10 * digit_val c + digit_val d, rest)
      else None
  | _ => None
  end.

(** The ways the month group can match, in the order the alternatives are
    tried: [1[0-2]], [0[1-9]], [[1-9]]. *)
Definition month_alternatives (s : list ascii) : list (Z * list ascii) :=
  (match s with
   | a :: b :: rest =>
       if in_range 1 1 a && in_range 0 2 b then [(10 + digit_val b, rest)] else []
   | _ => []
   end) ++
  (match s with
   | a :: b :: rest =>
       if in_range 0 0 a && in_range 1 9 b then [(digit_val b, rest)] else []
   | _ => []
   end) ++
  (match s with
   | a :: rest => if in_range 1 9 a then [(digit_val a, rest)] else []
   | _ => []
   end).

(** The same for the day group: [3[0-1]], [[1-2]\d], [0[1-9]], [[1-9]],
    [ [1-9]]. *)
Definition day_alternatives (s : list ascii) : list (Z * list ascii) :=
  (match s with
   | a :: b :: rest =>
       if in_range 3 3 a && in_range 0 1 b then [(30 + digit_val b, rest)] else []
   | _ => []
   end) ++
  (match s with
   | a :: b :: rest =>
       if in_range 1 2 a && is_digit b
       then [(10 * digit_val a + digit_val b, rest)] else []
   | _ => []
   end) ++
  (match s with
   | a :: b :: rest =>
       if in_range 0 0 a && in_range 1 9 b then [(digit_val b, rest)] else []
   | _ => []
   end) ++
  (match s with
   | a :: rest => if in_range 1 9 a then [(digit_val a, rest)] else []
   | _ => []
   end) ++
  (match s with
   | a :: b :: rest =>
       if Ascii.eqb a space && in_range 1 9 b then [(digit_val b, rest)] else []
   | _ => []
   end).

(** After a month: the dash, then the first way the day matches. *)
Definition match_dash_day (s : list ascii) : option (Z * list ascii) :=
  match s with
  | c :: rest => if Ascii.eqb c dash then hd_error (day_alternatives rest) else None
  | [] => None
  end.

(** The first month alternative after which the rest of the pattern
    matches. *)
Fixpoint first_month (alts : list (Z * list ascii))
  : option (Z * Z * list ascii) :=
  match alts with
  | [] => None
  | (m, rest) :: alts' =>
      match match_dash_day rest with
      | Some (d, rest') => Some (m, d, rest')
      | None => first_month alts'
      end
  end.

(** [format_regex.match(data_string)]: the groups and the unmatched tail. *)
Definition regex_match (s : list ascii) : option (Z * Z * Z * list ascii) :=
  match match_year s with
  | Some (y, c :: rest) =>
      if Ascii.eqb c dash then
        match first_month (month_alternatives rest) with
        | Some (m, d, tail) => Some (y, m, d, tail)
        | None => None
        end
      else None
  | _ => None
  end.

Definition strptime_text (s : string) : result datetime :=
  match regex_match (list_ascii_of_string s) with
  | Some (y, m, d, []) =>
      if (1 <=? y) && (d <=? days_in_month y m)
      then Ok (mkDatetime y m d 0 0 0 0)
      else Raise (LibraryError "ValueError")
  | _ => Raise (LibraryError "ValueError")
  end.

(** [strptime] wants a [str]; a null argument is a [TypeError]. *)
Definition strptime (ts : cell) : result datetime :=
  match ts with
  | Some s => strptime_text s
  | None => Raise (LibraryError "TypeError")
  end.

(** ** The world: database file, standard output, clock and service *)

(** What the process does to the outside, in order. *)
Inductive Event : Type :=
| EvPrint (line : string)        (* print(text) *)
| EvPrintFrame (df : DataFrame)  (* print(df) *)
| EvConnect                      (* sqlite3.connect(...) *)
| EvExecuteSchema                (* cursor.execute(sql_query) *)
| EvToSql (df : DataFrame)       (* df.to_sql(...) *)
| EvClose.                       (* conn.close() *)

(** [table] is the content of [my_played_tracks] in insertion order, [None]
    while the table does not exist; [conn_open] tells whether the
    connection [conn] of [load_data] is open. *)
Record World : Type := mkWorld {
  table : option (list Row);
  conn_open : bool;
  events : list Event
}.

Definition M (A : Type) : Type := World -> result A * World.

Definition ret {A} (a : A) : M A := fun w => (Ok a, w).

Definition raise {A} (e : exn) : M A := fun w => (Raise e, w).

Definition bind {A B} (c : M A) (k : A -> M B) : M B :=
  fun w =>
    match c w with
    | (Ok a, w') => k a w'
    | (Raise e, w') => (Raise e, w')
    end.

Definition lift {A} (r : result A) : M A := fun w => (r, w).

Notation "x <- c ;; k" := (bind c (fun x => k))
  (at level 61, c at next level, right associativity).
Notation "c ;; k" := (bind c (fun _ => k))
  (at level 61, right associativity).

Definition emit (e : Event) : M unit :=
  fun w => (Ok tt, mkWorld (table w) (conn_open w) (events w ++ [e])).

Definition print (line : string) : M unit := emit (EvPrint line).

(** [try: body / except cls: handler / finally: fin] *)
Definition try_except_finally {A} (body : M A) (cls : string)
  (handler : M A) (fin : M unit) : M A :=
  fun w =>
    let (r, w1) :=
      match body w with
      | (Ok a, w1) => (Ok a, w1)
      | (Raise e, w1) =>
          if String.eqb (class_of e) cls then handler w1 else (Raise e, w1)
      end in
    match fin w1 with
    | (Ok _, w2) => (r, w2)
    | (Raise e, w2) => (Raise e, w2)
    end.

(** ** validate_data (lines 91-126) *)

(** Line 123: [any(strptime(ts, "%Y-%m-%d") != today for ts in ...)].
    The generator is consumed from the left and [any] stops at the first
    true element; a parse error surfaces when its element is reached. *)
Fixpoint any_not_today (today : datetime) (tss : list cell) : result bool :=
  match tss with
  | [] => Ok false
  | ts :: rest =>
      match strptime ts with
      | Raise e => Raise e
      | Ok d =>
          if negb (datetime_eqb d today) then Ok true
          else any_not_today today rest
      end
  end.

(** [now] is the value of [dt.datetime.now()] at line 122. *)
Definition validate_data (now : datetime) (df : DataFrame) : M bool :=
  if empty df then
    print "No songs downloaded" ;;
    ret false
  else if negb (is_unique (map played_at df)) then
    raise (PrimaryKeyError "Primary key check is violated.")
  else if isnull_values_any df then
    raise (NullValuesError "Null values found in DataFrame.")
  else
    let today := replace_midnight now in
    b <- lift (any_not_today today (map timestamp df)) ;;
    if b then
      raise (InvalidTimestampError
               "At least one song does not have today's timestamp")
    else ret true.

(** ** extract_recently_played (lines 28-51) *)

(** The response of the service, restricted to what the code reads.  A key
    the code reads may be missing from its object ([None]: Python raises
    [KeyError]); a text value may be null. *)
Record Artist : Type := mkArtist { a_name : option cell }.
Record Album : Type := mkAlbum { al_artists : option (list Artist) }.
Record Track : Type := mkTrack {
  t_name : option cell;
  t_album : option Album
}.
Record Song : Type := mkSong {
  s_track : option Track;
  s_played_at : option cell
}.
(** The top-level dictionary: its ["items"] key, and whether it holds any
    other key. *)
Record Payload : Type := mkPayload {
  p_items : option (list Song);
  p_other_keys : bool
}.
Inductive Response : Type :=
| RespNone
| RespDict (d : Payload).

(** Python truth value of the response: [None] and the empty dictionary are
    false. *)
Definition truthy (data : Response) : bool :=
  match data with
  | RespNone => false
  | RespDict d =>
      match p_items d with
      | Some _ => true
      | None => p_other_keys d
      end
  end.

(** What one run reads from outside: [mktime] converts a naive local
    datetime to POSIX seconds (the local time zone); [now_extract] and
    [now_validate] are the two readings of [dt.datetime.now()] (lines 43
    and 122); [current_user_recently_played after] is the service's answer
    to the one request. *)
Record Env : Type := mkEnv {
  mktime : datetime -> Z;
  now_extract : datetime;
  now_validate : datetime;
  current_user_recently_played : Z -> Response
}.

(** [int(d.timestamp())]: [timestamp()] is [mktime d + microsecond / 10^6]
    as a float and [int] truncates toward zero.  The code calls it at
    midnight only, where the float is the integer [mktime d] itself. *)
Definition int_timestamp (env : Env) (d : datetime) : Z :=
  Z.quot (mktime env d * 1000000 + microsecond d) 1000000.

(** Lines 43-45: the [after=] argument. *)
Definition watermark (env : Env) : Z :=
  let now := now_extract env in
  let midnight := replace_midnight now in
  int_timestamp env midnight * 10 ^ 3.

Definition extract_recently_played (env : Env) : result Response :=
  let timestamp := watermark env in
  let data := current_user_recently_played env timestamp in
  if negb (truthy data) then
    Raise (ValueError "No data found for recent song plays.")
  else Ok data.

(** ** transform_data (lines 54-88) *)

Definition rbind {A B} (r : result A) (k : A -> result B) : result B :=
  match r with
  | Ok a => k a
  | Raise e => Raise e
  end.

(** [d[key]] on a dictionary. *)
Definition getitem {A} (v : option A) : result A :=
  match v with
  | Some a => Ok a
  | None => Raise (LibraryError "KeyError")
  end.

(** [l[0]] on a list. *)
Definition getitem0 {A} (l : list A) : result A :=
  match l with
  | a :: _ => Ok a
  | [] => Raise (LibraryError "IndexError")
  end.

(** [v[:10]]: the first ten characters of a text; null is not sliceable. *)
Definition slice10 (v : cell) : result cell :=
  match v with
  | Some s => Ok (Some (substring 0 10 s))
  | None => Raise (LibraryError "TypeError")
  end.

(** The four lists the loop appends to. *)
Record Columns : Type := mkColumns {
  song_names : list cell;
  artist_names : list cell;
  played_ats : list cell;
  timestamps : list cell
}.

(** Lines 74-77: one iteration of the loop. *)
Definition transform_song (acc : Columns) (song : Song) : result Columns :=
  rbind (rbind (getitem (s_track song)) (fun t => getitem (t_name t)))
    (fun name =>
  rbind (rbind (rbind (rbind (rbind (getitem (s_track song))
                        (fun t => getitem (t_album t)))
                        (fun al => getitem (al_artists al)))
                        getitem0)
                        (fun a => getitem (a_name a)))
    (fun artist =>
  rbind (getitem (s_played_at song))
    (fun played =>
  rbind (rbind (getitem (s_played_at song)) slice10)
    (fun ts =>
  Ok (mkColumns (song_names acc ++ [name]) (artist_names acc ++ [artist])
                (played_ats acc ++ [played]) (timestamps acc ++ [ts])))))).

(** Lines 73-77: the loop. *)
Fixpoint transform_loop (acc : Columns) (items : list Song) : result Columns :=
  match items with
  | [] => Ok acc
  | song :: rest => rbind (transform_song acc song) (fun acc' => transform_loop acc' rest)
  end.

(** Line 88: [pd.DataFrame(song_dict, columns=[...])] puts the i-th
    elements of the four lists in row i; lists of different lengths are
    refused with [ValueError]. *)
Fixpoint zip_columns (a b c d : list cell) : result DataFrame :=
  match a, b, c, d with
  | [], [], [], [] => Ok []
  | x :: a', y :: b', z :: c', t :: d' =>
      rbind (zip_columns a' b' c' d') (fun rows => Ok (mkRow x y z t :: rows))
  | _, _, _, _ => Raise (LibraryError "ValueError")
  end.

Definition pd_DataFrame (song_dict : Columns) : result DataFrame :=
  zip_columns (song_names song_dict) (artist_names song_dict)
              (played_ats song_dict) (timestamps song_dict).

Definition transform_data (data : Response) : result DataFrame :=
  match data with
  | RespNone => Raise (LibraryError "TypeError")
  | RespDict d =>
      rbind (getitem (p_items d)) (fun items =>
      rbind (transform_loop (mkColumns [] [] [] []) items) pd_DataFrame)
  end.

(** ** load_data (lines 130-166) *)

(** Primary key on a text column in SQLite: a row is refused when its key
    is not null and a stored row has the same key. *)
Definition pk_conflict (tbl : list Row) (r : Row) : bool :=
  match played_at r with
  | None => false
  | Some k => existsb (fun r' => cell_eqb (played_at r') (Some k)) tbl
  end.

(** The rows of one bulk insert, in order, up to the first one refused:
    the table reached and whether a row was refused. *)
Fixpoint executemany (tbl : list Row) (rows : list Row) : list Row * bool :=
  match rows with
  | [] => (tbl, false)
  | r :: rest =>
      if pk_conflict tbl r then (tbl, true)
      else executemany (tbl ++ [r]) rest
  end.

(** [df.to_sql("my_played_tracks", engine, index=False, if_exists="append")]
    on an existing table.  A refused row raises [IntegrityError]; with
    [rollback] the rows inserted before it are undone (the insert runs in
    one transaction), without it they stay. *)
Definition to_sql (rollback : bool) (df : DataFrame) (tbl : list Row)
  : list Row * option exn :=
  let (tbl', refused) := executemany tbl df in
  if refused
  then ((if rollback then tbl else tbl'), Some (LibraryError "IntegrityError"))
  else (tbl', None).

(** [CREATE TABLE IF NOT EXISTS my_played_tracks(...)] *)
Definition create_table_if_not_exists (t : option (list Row)) : list Row :=
  match t with
  | Some rows => rows
  | None => []
  end.

Section Loader.

(** The bulk append as the store performs it: the table it leaves and the
    exception it raises, if any. *)
Variable bulk_append : DataFrame -> list Row -> list Row * option exn.

(** Line 141 *)
Definition sqlite3_connect : M unit :=
  fun w => (Ok tt, mkWorld (table w) true (events w ++ [EvConnect])).

(** Line 155 *)
Definition execute_schema : M unit :=
  fun w => (Ok tt, mkWorld (Some (create_table_if_not_exists (table w)))
                     (conn_open w) (events w ++ [EvExecuteSchema])).

(** Line 160 *)
Definition df_to_sql (df : DataFrame) : M unit :=
  fun w =>
    let (tbl, err) := bulk_append df (create_table_if_not_exists (table w)) in
    let w' := mkWorld (Some tbl) (conn_open w) (events w ++ [EvToSql df]) in
    match err with
    | None => (Ok tt, w')
    | Some e => (Raise e, w')
    end.

(** Line 165 *)
Definition conn_close : M unit :=
  fun w => (Ok tt, mkWorld (table w) false (events w ++ [EvClose])).

(** [sqlalchemy.create_engine] (line 140) opens nothing by itself; the
    engine connects when [to_sql] runs. *)
Definition load_data_with (df : DataFrame) : M unit :=
  sqlite3_connect ;;
  execute_schema ;;
  print "Opened database successfully" ;;
  try_except_finally
    (df_to_sql df)
    "IntegrityError"
    (print "Data already exists in the database.")
    (conn_close ;; print "Closed database successfully.").

End Loader.

(** [load_data] on the SQLite store; [rollback] is the store's policy on a
    refused bulk insert (see [to_sql]), not an argument of the Python
    function. *)
Definition load_data (rollback : bool) (df : DataFrame) : M unit :=
  load_data_with (to_sql rollback) df.

(** ** main (lines 169-185) *)

Definition main (rollback : bool) (env : Env) : M unit :=
  data <- lift (extract_recently_played env) ;;
  df <- lift (transform_data data) ;;
  emit (EvPrintFrame df) ;;
  ok <- validate_data (now_validate env) df ;;
  if ok then
    load_data rollback df ;;
    print "ETL process completed."
  else ret tt.

(** [load_data] was entered between the worlds [w] and [w']: it is the one
    place that connects to the database. *)
Definition is_loader_event (e : Event) : bool :=
  match e with
  | EvConnect | EvExecuteSchema | EvToSql _ | EvClose => true
  | EvPrint _ | EvPrintFrame _ => false
  end.

Definition loader_invoked (w w' : World) : bool :=
  existsb is_loader_event (skipn (length (events w)) (events w')).

(** ** Statement vocabulary and sample runs *)

(** [ts] is a text that [strptime] reads as the date [today]. *)
Definition parses_to (today : datetime) (ts : cell) : Prop :=
  strptime ts = Ok today.

(** The stored keys: the non-null [played_at] values, in table order. *)
Definition keys (tbl : list Row) : list string :=
  flat_map (fun r => match played_at r with Some k => [k] | None => [] end) tbl.


(** An item the loop body reads without raising: every key is there, the
    album lists an artist, and [played_at] is a text. *)
Definition well_formed (song : Song) : bool :=
  match s_track song, s_played_at song with
  | Some t, Some (Some _) =>
      match t_name t, t_album t with
      | Some _, Some al =>
          match al_artists al with
          | Some (a :: _) =>
              match a_name a with
              | Some _ => true
              | None => false
              end
          | _ => false
          end
      | _, _ => false
      end
  | _, _ => false
  end.

(** The row [r] is the projection of the item [song]: title, name of the
    first artist listed for the track's album, [played_at], and the first
    ten characters of [played_at]. *)
Definition projects (song : Song) (r : Row) : Prop :=
  exists t al a others played,
    s_track song = Some t /\ t_name t = Some (song_name r) /\
    t_album t = Some al /\ al_artists al = Some (a :: others) /\
    a_name a = Some (artist_name r) /\
    s_played_at song = Some (played_at r) /\
    played_at r = Some played /\
    timestamp r = Some (substring 0 10 played).

(** The four lists that hold the rows [rows]. *)
Definition columns_of (rows : list Row) : Columns :=
  mkColumns (map song_name rows) (map artist_name rows)
            (map played_at rows) (map timestamp rows).

(** The bulk append met a failure that [load_data] handles. *)
Definition handled (err : option exn) : bool :=
  match err with
  | Some e => String.eqb (class_of e) "IntegrityError"
  | None => false
  end.

(** A run in the afternoon of 1 January 2024 against a fresh database. *)
Definition sample_now : datetime := mkDatetime 2024 1 1 15 30 12 345.

Definition fresh_world : World := mkWorld None false [].

Definition row_A : Row :=
  mkRow (Some "A") (Some "X") (Some "2024-01-01T10:00:00Z") (Some "2024-01-01").
Definition row_B : Row :=
  mkRow (Some "B") (Some "Y") (Some "2024-01-01T10:00:00Z") (Some "2024-01-01").
Definition row_C : Row :=
  mkRow (Some "C") (Some "Z") (Some "2024-01-01T11:30:00Z") (Some "2024-01-01").
(** A play with an empty title. *)
Definition row_untitled : Row :=
  mkRow (Some EmptyString) (Some "X") (Some "2024-01-01T10:00:00Z") (Some "2024-01-01").
(** A play with a null title. *)
Definition row_null_title : Row :=
  mkRow None (Some "X") (Some "2024-01-01T10:00:00Z") (Some "2024-01-01").
(** A play of the day before. *)
Definition row_yesterday : Row :=
  mkRow (Some "D") (Some "Y") (Some "2023-12-31T23:59:00Z") (Some "2023-12-31").
(** A play whose [played_at] is not in ISO format. *)
Definition row_slashes : Row :=
  mkRow (Some "E") (Some "Y") (Some "01/01/2024 10:00") (Some "01/01/2024").

Definition song_of (name artist played : string) : Song :=
  mkSong (Some (mkTrack (Some (Some name))
                  (Some (mkAlbum (Some [mkArtist (Some (Some artist))])))))
         (Some (Some played)).

(** [mktime] of a machine whose local time zone is UTC: the days since
    1970-01-01 in the proleptic Gregorian calendar, in seconds, plus the
    time of day. *)
Definition days_before_year (y : Z) : Z :=
  (y - 1) * 365 + (y - 1) / 4 - (y - 1) / 100 + (y - 1) / 400.

Definition days_before_month (y m : Z) : Z :=
  fold_right Z.add 0
    (map (days_in_month y) (map Z.of_nat (seq 1 (Z.to_nat (m - 1))))).

Definition utc_mktime (d : datetime) : Z :=
  (days_before_year (year d) + days_before_month (year d) (month d) + day d
   - 719163) * 86400
  + hour d * 3600 + minute d * 60 + second d.

(** The sample runs: a machine on UTC, the service answering with the
    given items whatever the watermark. *)
Definition sample_env (items : list Song) : Env :=
  mkEnv utc_mktime sample_now sample_now
        (fun _ => RespDict (mkPayload (Some items) true)).

(** The same machine, the service answering with nothing. *)
Definition silent_env : Env :=
  mkEnv utc_mktime sample_now sample_now (fun _ => RespNone).

(** ** Vocabulary of the further properties *)

(** Two clock readings on the same calendar day. *)
Definition same_date (a b : datetime) : Prop :=
  year a = year b /\ month a = month b /\ day a = day b.

(** The keys of the batch [df] are pairwise distinct and none of them is
    stored in [tbl]. *)
Definition fresh_keys (df tbl : list Row) : Prop :=
  NoDup (keys df) /\ forall k, In k (keys df) -> ~ In k (keys tbl).

(** The rows of [my_played_tracks] in the world [w] (none while the table
    does not exist). *)
Definition stored (w : World) : list Row :=
  create_table_if_not_exists (table w).

(** The field-access errors of the loop body of [transform_data]. *)
Definition field_access_errors : list string :=
  ["KeyError"; "IndexError"; "TypeError"].

(** An item whose album lists no artist, and one whose [played_at] is
    null. *)
Definition song_no_artist : Song :=
  mkSong (Some (mkTrack (Some (Some "F")) (Some (mkAlbum (Some [])))))
         (Some (Some "2024-01-01T12:00:00Z")).
Definition song_null_played_at : Song :=
  mkSong (Some (mkTrack (Some (Some "G"))
                  (Some (mkAlbum (Some [mkArtist (Some (Some "X"))])))))
         (Some None).

(** * Properties *)

(** ** Cells, columns and dates *)

Lemma cell_eqb_eq (a b : cell) : cell_eqb a b = true <-> a = b.
Proof.
  destruct a as [x|], b as [y|]; simpl; split; intro H;
    try discriminate; try reflexivity.
  - apply String.eqb_eq in H. now subst.
  - injection H as ->. apply String.eqb_refl.
Qed.

Lemma existsb_cell_eqb_In (c : cell) (cs : list cell) :
  existsb (cell_eqb c) cs = true <-> In c cs.
Proof.
  rewrite existsb_exists. split.
  - intros (x & Hin & Heq). apply cell_eqb_eq in Heq. now subst.
  - intros Hin. exists c. split; [assumption | now apply cell_eqb_eq].
Qed.

Lemma is_unique_NoDup (col : list cell) : is_unique col = true <-> NoDup col.
Proof.
  induction col as [|c cs IH]; simpl.
  - split; [constructor | reflexivity].
  - rewrite andb_true_iff, negb_true_iff, IH. split.
    + intros [Hn Hd]. constructor; [|assumption].
      intro Hin. apply existsb_cell_eqb_In in Hin. congruence.
    + intros Hnd. inversion Hnd as [|? ? Hn Hd]; subst. split; [|assumption].
      destruct (existsb (cell_eqb c) cs) eqn:E; [|reflexivity].
      apply existsb_cell_eqb_In in E. contradiction.
Qed.

(** Two positions of a column holding the same value make it non-unique. *)
Lemma shared_value_not_NoDup {A} (l : list A) (i j : nat) (x : A) :
  i <> j -> nth_error l i = Some x -> nth_error l j = Some x -> ~ NoDup l.
Proof.
  intros Hij Hi Hj Hnd.
  apply Hij. rewrite NoDup_nth_error in Hnd. apply Hnd.
  - apply nth_error_Some. congruence.
  - congruence.
Qed.

Lemma isnull_None (c : cell) : isnull c = true <-> c = None.
Proof. destruct c; simpl; split; congruence. Qed.

Lemma isnull_values_any_true (df : DataFrame) :
  isnull_values_any df = true <->
  exists r, In r df /\ In None (row_cells r).
Proof.
  unfold isnull_values_any. rewrite existsb_exists. split.
  - intros (r & Hin & Hex). exists r. split; [assumption|].
    apply existsb_exists in Hex. destruct Hex as (c & Hc & Hn).
    apply isnull_None in Hn. now subst.
  - intros (r & Hin & Hc). exists r. split; [assumption|].
    apply existsb_exists. exists None. split; [assumption | reflexivity].
Qed.

Lemma isnull_values_any_false (df : DataFrame) :
  isnull_values_any df = false <->
  forall r, In r df -> ~ In None (row_cells r).
Proof.
  split.
  - intros H r Hin Hc.
    assert (isnull_values_any df = true) by (apply isnull_values_any_true; eauto).
    congruence.
  - intros H. destruct (isnull_values_any df) eqn:E; [|reflexivity].
    apply isnull_values_any_true in E. destruct E as (r & Hin & Hc).
    exfalso. eapply H; eauto.
Qed.

Lemma datetime_eqb_eq (a b : datetime) : datetime_eqb a b = true <-> a = b.
Proof.
  unfold datetime_eqb. destruct a, b; simpl.
  repeat rewrite andb_true_iff. repeat rewrite Z.eqb_eq. split.
  - intros [[[[[[? ?] ?] ?] ?] ?] ?]. now subst.
  - intros H. injection H as -> -> -> -> -> -> ->. repeat split.
Qed.

(** ** The date parser on sample texts *)

Example strptime_iso : strptime (Some "2024-01-01") = Ok (mkDatetime 2024 1 1 0 0 0 0).
Proof. reflexivity. Qed.

Example strptime_short_fields :
  strptime (Some "2024-1-5") = Ok (mkDatetime 2024 1 5 0 0 0 0).
Proof. reflexivity. Qed.

Example strptime_leap_day :
  strptime (Some "2024-02-29") = Ok (mkDatetime 2024 2 29 0 0 0 0) /\
  strptime (Some "2023-02-29") = Raise (LibraryError "ValueError").
Proof. split; reflexivity. Qed.

Example strptime_trailing_text :
  strptime (Some "2024-01-01T10:00:00Z") = Raise (LibraryError "ValueError").
Proof. reflexivity. Qed.

Example strptime_empty_text : strptime (Some EmptyString) = Raise (LibraryError "ValueError").
Proof. reflexivity. Qed.

Example strptime_null : strptime None = Raise (LibraryError "TypeError").
Proof. reflexivity. Qed.

(** ** The freshness scan *)

Lemma any_not_today_false (today : datetime) (tss : list cell) :
  any_not_today today tss = Ok false <-> Forall (parses_to today) tss.
Proof.
  induction tss as [|ts rest IH]; simpl.
  - split; [constructor | reflexivity].
  - unfold parses_to at 1. destruct (strptime ts) as [d|e] eqn:E.
    + destruct (datetime_eqb d today) eqn:Ed; simpl.
      * apply datetime_eqb_eq in Ed. subst d. rewrite IH. split.
        -- intro H. constructor; assumption.
        -- intro H. now inversion H.
      * split; [discriminate|]. intro H. inversion H as [|? ? Hp _]; subst.
        unfold parses_to in Hp. rewrite E in Hp. injection Hp as ->.
        assert (datetime_eqb today today = true) by now apply datetime_eqb_eq.
        congruence.
    + split; [discriminate|]. intro H. inversion H as [|? ? Hp _]; subst.
      unfold parses_to in Hp. congruence.
Qed.

(** Past a prefix of today's dates the scan continues with the rest. *)
Lemma any_not_today_skip (today : datetime) (pre rest : list cell) :
  Forall (parses_to today) pre ->
  any_not_today today (pre ++ rest) = any_not_today today rest.
Proof.
  induction 1 as [|ts pre Hts _ IH]; simpl; [reflexivity|].
  unfold parses_to in Hts. rewrite Hts.
  assert (E : datetime_eqb today today = true) by now apply datetime_eqb_eq.
  rewrite E. simpl. exact IH.
Qed.

Lemma any_not_today_stale (today d : datetime) (pre post : list cell) (ts : cell) :
  Forall (parses_to today) pre -> strptime ts = Ok d -> d <> today ->
  any_not_today today (pre ++ ts :: post) = Ok true.
Proof.
  intros Hpre Hts Hd. rewrite any_not_today_skip by assumption. simpl.
  rewrite Hts. destruct (datetime_eqb d today) eqn:E; [|reflexivity].
  apply datetime_eqb_eq in E. contradiction.
Qed.

Lemma any_not_today_error (today : datetime) (pre post : list cell) (ts : cell) (e : exn) :
  Forall (parses_to today) pre -> strptime ts = Raise e ->
  any_not_today today (pre ++ ts :: post) = Raise e.
Proof.
  intros Hpre Hts. rewrite any_not_today_skip by assumption. simpl.
  now rewrite Hts.
Qed.

(** A text that does not parse is a [ValueError] of the library. *)
Lemma strptime_text_error (s : string) (e : exn) :
  strptime (Some s) = Raise e -> e = LibraryError "ValueError".
Proof.
  simpl. unfold strptime_text.
  destruct (regex_match (list_ascii_of_string s)) as [[[[y m] d] [|c tl]]|];
    try (intro H; injection H as <-; reflexivity).
  destruct ((1 <=? y) && (d <=? days_in_month y m)); [discriminate|].
  intro H; injection H as <-; reflexivity.
Qed.

(** ** The gate, case by case *)

Lemma validate_data_empty (now : datetime) (w : World) :
  validate_data now [] w =
  (Ok false, mkWorld (table w) (conn_open w)
                     (events w ++ [EvPrint "No songs downloaded"])).
Proof. reflexivity. Qed.

(** On a batch with a row the gate leaves the world as it is. *)
Lemma validate_data_world (now : datetime) (df : DataFrame) (w : World) :
  df <> [] -> snd (validate_data now df w) = w.
Proof.
  intro Hne. destruct df as [|r df]; [contradiction|].
  unfold validate_data. cbn [empty].
  destruct (negb (is_unique (map played_at (r :: df)))); [reflexivity|].
  destruct (isnull_values_any (r :: df)); [reflexivity|].
  unfold bind, lift.
  destruct (any_not_today _ _) as [[|]|e]; reflexivity.
Qed.

Lemma validate_data_checks (now : datetime) (df : DataFrame) (w : World) :
  df <> [] ->
  fst (validate_data now df w) =
  if negb (is_unique (map played_at df)) then
    Raise (PrimaryKeyError "Primary key check is violated.")
  else if isnull_values_any df then
    Raise (NullValuesError "Null values found in DataFrame.")
  else
    match any_not_today (replace_midnight now) (map timestamp df) with
    | Ok true => Raise (InvalidTimestampError
                          "At least one song does not have today's timestamp")
    | Ok false => Ok true
    | Raise e => Raise e
    end.
Proof.
  intro Hne. destruct df as [|r df]; [contradiction|].
  unfold validate_data. cbn [empty].
  destruct (negb (is_unique (map played_at (r :: df)))); [reflexivity|].
  destruct (isnull_values_any (r :: df)); [reflexivity|].
  unfold bind, lift.
  destruct (any_not_today _ _) as [[|]|e]; reflexivity.
Qed.

(** ** main, once the batch is known *)

Lemma skipn_length_app {A} (l l' : list A) : skipn (length l) (l ++ l') = l'.
Proof. induction l as [|x l IH]; simpl; [reflexivity | exact IH]. Qed.

Lemma main_from_batch (rollback : bool) (env : Env) (w : World)
  (data : Response) (df : DataFrame) :
  extract_recently_played env = Ok data -> transform_data data = Ok df ->
  main rollback env w =
  (ok <- validate_data (now_validate env) df ;;
   if ok then load_data rollback df ;; print "ETL process completed."
   else ret tt)
    (mkWorld (table w) (conn_open w) (events w ++ [EvPrintFrame df])).
Proof.
  intros He Ht. unfold main, bind at 1, lift. rewrite He.
  unfold bind at 1. rewrite Ht. reflexivity.
Qed.

(** A batch the gate refuses never reaches the loader: the run ends with
    the gate's exception, having printed the frame and nothing else. *)
Lemma main_gate_raises (rollback : bool) (env : Env) (w : World)
  (data : Response) (df : DataFrame) (e : exn) :
  extract_recently_played env = Ok data -> transform_data data = Ok df ->
  df <> [] -> fst (validate_data (now_validate env) df w) = Raise e ->
  main rollback env w =
  (Raise e, mkWorld (table w) (conn_open w) (events w ++ [EvPrintFrame df])).
Proof.
  intros He Ht Hne Hv. rewrite (main_from_batch _ _ _ _ _ He Ht).
  set (w1 := mkWorld _ _ _).
  pose proof (validate_data_world (now_validate env) df w1 Hne) as Hw.
  assert (Hr : fst (validate_data (now_validate env) df w1) = Raise e).
  { rewrite validate_data_checks by assumption.
    rewrite validate_data_checks in Hv by assumption. exact Hv. }
  unfold bind. destruct (validate_data (now_validate env) df w1) as [r w2].
  simpl in Hw, Hr. subst. reflexivity.
Qed.

Lemma loader_not_invoked_after (w : World) (t : option (list Row)) (c : bool)
  (es : list Event) :
  forallb (fun e => negb (is_loader_event e)) es = true ->
  loader_invoked w (mkWorld t c (events w ++ es)) = false.
Proof.
  intro H. unfold loader_invoked. simpl. rewrite skipn_length_app.
  induction es as [|e es IH]; simpl in *; [reflexivity|].
  apply andb_true_iff in H. destruct H as [He Hes].
  apply negb_true_iff in He. rewrite He. simpl. now apply IH.
Qed.

(** ** The validator's contract *)

Lemma validate_data_true_iff (now : datetime) (df : DataFrame) (w : World) :
  fst (validate_data now df w) = Ok true <->
  df <> [] /\
  NoDup (map played_at df) /\
  (forall r, In r df -> ~ In None (row_cells r)) /\
  (forall r, In r df -> parses_to (replace_midnight now) (timestamp r)).
Proof.
  destruct df as [|r0 df0].
  { simpl. split; [discriminate | intros [H _]; contradiction]. }
  remember (r0 :: df0) as df eqn:Edf.
  assert (Hne : df <> []) by (subst df; discriminate).
  clear Edf. rewrite validate_data_checks by assumption.
  destruct (is_unique (map played_at df)) eqn:Eu; cbn [negb].
  - apply is_unique_NoDup in Eu.
    destruct (isnull_values_any df) eqn:En.
    + split; [discriminate|]. intros (_ & _ & Hnn & _).
      apply isnull_values_any_false in Hnn. congruence.
    + pose proof (proj1 (isnull_values_any_false df) En) as Hnn.
      destruct (any_not_today _ _) as [[|]|e] eqn:Ea.
      * split; [discriminate|]. intros (_ & _ & _ & Hf).
        assert (any_not_today (replace_midnight now) (map timestamp df) = Ok false).
        { apply any_not_today_false. apply Forall_map, Forall_forall. exact Hf. }
        congruence.
      * split; [|reflexivity]. intros _. repeat split; try assumption.
        apply any_not_today_false in Ea.
        rewrite Forall_map, Forall_forall in Ea. exact Ea.
      * split; [discriminate|]. intros (_ & _ & _ & Hf).
        assert (any_not_today (replace_midnight now) (map timestamp df) = Ok false).
        { apply any_not_today_false. apply Forall_map, Forall_forall. exact Hf. }
        congruence.
  - split; [discriminate|]. intros (_ & Hnd & _).
    apply is_unique_NoDup in Hnd. congruence.
Qed.

(** C1. [validate_data] returns true exactly when the batch has a row, its
    [played_at] values are pairwise distinct, no cell is null and every
    timestamp reads as today's date; on the empty batch it returns false
    without raising, and a run whose batch is empty ends normally without
    entering [load_data]. *)
Theorem validate_data_proceed_signal :
  forall (now : datetime) (df : DataFrame) (w : World),
    (fst (validate_data now df w) = Ok true <->
     df <> [] /\
     NoDup (map played_at df) /\
     (forall r, In r df -> ~ In None (row_cells r)) /\
     (forall r, In r df -> parses_to (replace_midnight now) (timestamp r))) /\
    fst (validate_data now [] w) = Ok false /\
    (forall rollback env data,
        extract_recently_played env = Ok data ->
        transform_data data = Ok [] ->
        fst (main rollback env w) = Ok tt /\
        loader_invoked w (snd (main rollback env w)) = false /\
        table (snd (main rollback env w)) = table w).
Proof.
  intros now df w. split; [|split].
  - apply validate_data_true_iff.
  - reflexivity.
  - intros rollback env data He Ht.
    rewrite (main_from_batch _ _ _ _ _ He Ht). cbn -[loader_invoked].
    repeat split.
    unfold loader_invoked. cbn [events].
    rewrite <- app_assoc, skipn_length_app. reflexivity.
Qed.

Lemma validate_data_proceed_signal_witness :
  fst (validate_data sample_now [row_A; row_C] fresh_world) = Ok true /\
  fst (main true (sample_env []) fresh_world) = Ok tt /\
  loader_invoked fresh_world (snd (main true (sample_env []) fresh_world)) = false.
Proof.
  destruct (validate_data_proceed_signal sample_now [row_A; row_C] fresh_world)
    as (Hiff & _ & Hmain).
  split.
  - apply Hiff. split; [discriminate|]. split.
    + repeat constructor; simpl; intuition discriminate.
    + split; intros r [<-|[<-|[]]]; simpl; try reflexivity; intuition discriminate.
  - destruct (Hmain true (sample_env []) (RespDict (mkPayload (Some []) true))
                eq_refl eq_refl) as (H1 & H2 & _).
    split; assumption.
Defined.

(** C2. When two rows of a batch share their [played_at] value,
    [validate_data] raises [PrimaryKeyError], and a run on that batch ends
    with that exception without entering [load_data]: the table is as it
    was found. *)
Theorem duplicate_played_at_rejected :
  forall (now : datetime) (df : DataFrame) (w : World) (i j : nat) (r1 r2 : Row),
    i <> j ->
    nth_error df i = Some r1 ->
    nth_error df j = Some r2 ->
    played_at r1 = played_at r2 ->
    raises (fst (validate_data now df w)) "PrimaryKeyError" /\
    (forall rollback env data,
        extract_recently_played env = Ok data ->
        transform_data data = Ok df ->
        raises (fst (main rollback env w)) "PrimaryKeyError" /\
        loader_invoked w (snd (main rollback env w)) = false /\
        table (snd (main rollback env w)) = table w).
Proof.
  intros now df w i j r1 r2 Hij Hi Hj Hk.
  assert (Hne : df <> []).
  { intro E. subst df. destruct i; discriminate. }
  assert (Hu : is_unique (map played_at df) = false).
  { destruct (is_unique (map played_at df)) eqn:E; [|reflexivity].
    apply is_unique_NoDup in E. exfalso.
    apply (shared_value_not_NoDup (map played_at df) i j (played_at r1) Hij);
      [| |assumption].
    - rewrite nth_error_map, Hi. reflexivity.
    - rewrite nth_error_map, Hj, Hk. reflexivity. }
  assert (Hv : forall n w', fst (validate_data n df w') =
                 Raise (PrimaryKeyError "Primary key check is violated.")).
  { intros n w'. rewrite validate_data_checks by assumption. now rewrite Hu. }
  split.
  - eexists. split; [apply Hv | reflexivity].
  - intros rollback env data He Ht.
    rewrite (main_gate_raises rollback env w data df _ He Ht Hne (Hv _ _)).
    split; [|split].
    + eexists. split; reflexivity.
    + apply loader_not_invoked_after. reflexivity.
    + reflexivity.
Qed.

Lemma duplicate_played_at_rejected_witness :
  raises (fst (validate_data sample_now [row_A; row_B] fresh_world))
         "PrimaryKeyError" /\
  loader_invoked fresh_world
    (snd (main true (sample_env [song_of "A" "X" "2024-01-01T10:00:00Z";
                                 song_of "B" "Y" "2024-01-01T10:00:00Z"])
               fresh_world)) = false.
Proof.
  destruct (duplicate_played_at_rejected sample_now [row_A; row_B] fresh_world
              0%nat 1%nat row_A row_B (O_S 0) eq_refl eq_refl eq_refl)
    as [Hv Hm].
  split; [exact Hv|].
  destruct (Hm true (sample_env [song_of "A" "X" "2024-01-01T10:00:00Z";
                                 song_of "B" "Y" "2024-01-01T10:00:00Z"])
               (RespDict (mkPayload (Some [song_of "A" "X" "2024-01-01T10:00:00Z";
                                           song_of "B" "Y" "2024-01-01T10:00:00Z"])
                                    true))
               eq_refl eq_refl) as (_ & H & _).
  exact H.
Defined.

Lemma raises_class {A} (e : exn) (cls : string) :
  raises (@Raise A e) cls <-> class_of e = cls.
Proof.
  split.
  - intros (e' & He & Hc). injection He as ->. exact Hc.
  - intro Hc. exists e. split; [reflexivity | exact Hc].
Qed.

Lemma Ok_not_raises {A} (a : A) (cls : string) : ~ raises (Ok a) cls.
Proof. intros (e & He & _). discriminate. Qed.

(** C3, as stated, fails: a batch of one row whose title is the empty text
    passes the uniqueness check, holds an empty value, and is accepted. *)
Lemma empty_text_passes_null_check :
  [row_untitled] <> [] /\
  NoDup (map played_at [row_untitled]) /\
  In (Some EmptyString) (row_cells row_untitled) /\
  fst (validate_data sample_now [row_untitled] fresh_world) = Ok true /\
  ~ raises (fst (validate_data sample_now [row_untitled] fresh_world))
      "NullValuesError".
Proof.
  split; [discriminate|]. split.
  { repeat constructor. simpl. intuition. }
  split; [simpl; auto|].
  assert (H : fst (validate_data sample_now [row_untitled] fresh_world) = Ok true)
    by reflexivity.
  split; [exact H|]. rewrite H. apply Ok_not_raises.
Qed.

(** C3, amended. In a batch with pairwise-distinct [played_at] values, a
    row with a null in any of its four fields makes [validate_data] raise
    [NullValuesError]. *)
Theorem null_field_rejected :
  forall (now : datetime) (df : DataFrame) (w : World) (r : Row),
    NoDup (map played_at df) ->
    In r df ->
    In None (row_cells r) ->
    fst (validate_data now df w) =
    Raise (NullValuesError "Null values found in DataFrame.").
Proof.
  intros now df w r Hnd Hin Hnull.
  assert (Hne : df <> []) by (intro E; subst df; contradiction).
  rewrite validate_data_checks by assumption.
  apply is_unique_NoDup in Hnd. rewrite Hnd. cbn [negb].
  assert (Hn : isnull_values_any df = true)
    by (apply isnull_values_any_true; eauto).
  now rewrite Hn.
Qed.

Lemma null_field_rejected_witness :
  NoDup (map played_at [row_null_title; row_C]) /\
  In None (row_cells row_null_title) /\
  fst (validate_data sample_now [row_null_title; row_C] fresh_world) =
  Raise (NullValuesError "Null values found in DataFrame.").
Proof.
  assert (Hnd : NoDup (map played_at [row_null_title; row_C]))
    by (repeat constructor; simpl; intuition discriminate).
  split; [exact Hnd|]. split; [simpl; auto|].
  exact (null_field_rejected sample_now [row_null_title; row_C] fresh_world
           row_null_title Hnd (or_introl eq_refl) (or_introl eq_refl)).
Defined.




(** C10, as stated, fails: in the batch of yesterday's play followed by a
    play whose timestamp is "01/01/2024", a timestamp does not parse, yet
    [validate_data] raises [InvalidTimestampError]: the scan stops at the
    first row, whose timestamp reads as another day. *)
Lemma stale_row_before_unreadable_row :
  is_unique (map played_at [row_yesterday; row_slashes]) = true /\
  isnull_values_any [row_yesterday; row_slashes] = false /\
  strptime (timestamp row_slashes) = Raise (LibraryError "ValueError") /\
  raises (fst (validate_data sample_now [row_yesterday; row_slashes] fresh_world))
    "InvalidTimestampError" /\
  ~ raises (fst (validate_data sample_now [row_yesterday; row_slashes] fresh_world))
      "ValueError".
Proof.
  split; [reflexivity|]. split; [reflexivity|]. split; [reflexivity|].
  assert (H : fst (validate_data sample_now [row_yesterday; row_slashes] fresh_world) =
              Raise (InvalidTimestampError
                       "At least one song does not have today's timestamp"))
    by reflexivity.
  rewrite H. split.
  - apply raises_class. reflexivity.
  - rewrite raises_class. discriminate.
Qed.

(** C10, amended. On a batch that passes the uniqueness and null checks, if
    the first row, in batch order, whose timestamp does not read as today's
    date holds a text that does not parse under "%Y-%m-%d", [validate_data]
    ends with the parser's [ValueError], which is none of
    [PrimaryKeyError], [NullValuesError] and [InvalidTimestampError]. *)
Theorem unreadable_timestamp_value_error :
  forall (now : datetime) (df : DataFrame) (w : World)
         (pre post : list Row) (r : Row),
    NoDup (map played_at df) ->
    (forall r', In r' df -> ~ In None (row_cells r')) ->
    df = (pre ++ r :: post)%list ->
    (forall r', In r' pre -> parses_to (replace_midnight now) (timestamp r')) ->
    (forall d, strptime (timestamp r) <> Ok d) ->
    fst (validate_data now df w) = Raise (LibraryError "ValueError") /\
    raises (fst (validate_data now df w)) "ValueError" /\
    (forall cls,
        In cls ["PrimaryKeyError"; "NullValuesError"; "InvalidTimestampError"] ->
        ~ raises (fst (validate_data now df w)) cls).
Proof.
  intros now df w pre post r Hnd Hnn Hdf Hpre Hbad.
  assert (Hne : df <> []) by (subst df; destruct pre; discriminate).
  assert (Hts : exists s, timestamp r = Some s).
  { destruct (timestamp r) as [s|] eqn:E; [eauto|]. exfalso.
    apply (Hnn r).
    - subst df. apply in_or_app. right. left. reflexivity.
    - unfold row_cells. rewrite E. simpl. auto. }
  destruct Hts as [s Hs].
  assert (Hr : strptime (timestamp r) = Raise (LibraryError "ValueError")).
  { destruct (strptime (timestamp r)) as [d|e] eqn:E.
    - exfalso. now apply (Hbad d).
    - rewrite Hs in E. apply strptime_text_error in E. now subst e. }
  assert (H : fst (validate_data now df w) = Raise (LibraryError "ValueError")).
  { rewrite validate_data_checks by assumption.
    apply is_unique_NoDup in Hnd. apply isnull_values_any_false in Hnn.
    rewrite Hnd, Hnn. cbn [negb].
    assert (E : any_not_today (replace_midnight now) (map timestamp df) =
                Raise (LibraryError "ValueError")).
    { subst df. rewrite map_app. simpl. apply any_not_today_error; [|assumption].
      apply Forall_map, Forall_forall. exact Hpre. }
    now rewrite E. }
  rewrite H. split; [reflexivity|]. split.
  - apply raises_class. reflexivity.
  - intros cls Hin. rewrite raises_class. simpl.
    destruct Hin as [<-|[<-|[<-|[]]]]; discriminate.
Qed.

Lemma unreadable_timestamp_value_error_witness :
  fst (validate_data sample_now [row_A; row_slashes; row_yesterday] fresh_world) =
  Raise (LibraryError "ValueError").
Proof.
  refine (proj1 (unreadable_timestamp_value_error sample_now
                   [row_A; row_slashes; row_yesterday] fresh_world
                   [row_A] [row_yesterday] row_slashes _ _ eq_refl _ _)).
  - repeat constructor; simpl; intuition discriminate.
  - intros r [<-|[<-|[<-|[]]]]; simpl; intuition discriminate.
  - intros r [<-|[]]; reflexivity.
  - intros d; discriminate.
Defined.

(** ** The loader *)

(** One call of the loader, spelled out: what it returns and the world it
    leaves, for any behaviour of the bulk append. *)
Lemma load_data_with_run
  (bulk_append : DataFrame -> list Row -> list Row * option exn)
  (df : DataFrame) (w : World) :
  load_data_with bulk_append df w =
  let out := bulk_append df (create_table_if_not_exists (table w)) in
  (match snd out with
   | None => Ok tt
   | Some e => if handled (snd out) then Ok tt else Raise e
   end,
   mkWorld (Some (fst out)) false
     (events w ++
      [EvConnect; EvExecuteSchema; EvPrint "Opened database successfully";
       EvToSql df] ++
      (if handled (snd out)
       then [EvPrint "Data already exists in the database."] else []) ++
      [EvClose; EvPrint "Closed database successfully."])).
Proof.
  unfold load_data_with, bind, sqlite3_connect, execute_schema, print, emit,
    try_except_finally, df_to_sql, conn_close.
  cbn [table conn_open events create_table_if_not_exists fst snd].
  destruct (bulk_append df (create_table_if_not_exists (table w))) as [tbl [e|]];
    cbn [fst snd handled table conn_open events].
  - destruct (String.eqb (class_of e) "IntegrityError");
      cbn [table conn_open events]; repeat rewrite <- app_assoc; reflexivity.
  - repeat rewrite <- app_assoc. reflexivity.
Qed.

(** *** The primary key *)

Lemma keys_app (t1 t2 : list Row) : keys (t1 ++ t2) = (keys t1 ++ keys t2)%list.
Proof. unfold keys. apply flat_map_app. Qed.

Lemma pk_conflict_In_keys (tbl : list Row) (r : Row) (k : string) :
  played_at r = Some k -> (pk_conflict tbl r = true <-> In k (keys tbl)).
Proof.
  intro Hk. unfold pk_conflict. rewrite Hk.
  induction tbl as [|r' tbl IH]; simpl.
  - split; [discriminate | contradiction].
  - rewrite orb_true_iff, IH, in_app_iff. apply or_iff_compat_r.
    destruct (played_at r') as [k'|]; simpl.
    + rewrite String.eqb_eq. intuition.
    + intuition discriminate.
Qed.



(** The constraint survives a bulk insert. *)
Lemma executemany_keys_NoDup (rows tbl : list Row) :
  NoDup (keys tbl) -> NoDup (keys (fst (executemany tbl rows))).
Proof.
  revert tbl. induction rows as [|r rest IH]; intros tbl Hnd; simpl.
  - exact Hnd.
  - destruct (pk_conflict tbl r) eqn:E; [exact Hnd|].
    apply IH. rewrite keys_app. unfold keys at 2. simpl.
    destruct (played_at r) as [k|] eqn:Hk; simpl.
    + assert (Hnot : ~ In k (keys tbl)).
      { intro Hin. apply (pk_conflict_In_keys tbl r k Hk) in Hin. congruence. }
      clear - Hnd Hnot. induction (keys tbl) as [|x l IHl]; simpl.
      * constructor; [intros []|constructor].
      * inversion Hnd as [|? ? Hx Hl]; subst. constructor.
        -- rewrite in_app_iff. intros [H|[H|[]]]; [contradiction|].
           apply Hnot. left. now subst.
        -- apply IHl; [assumption|]. intro H. apply Hnot. now right.
    + now rewrite app_nil_r.
Qed.





Lemma to_sql_keys_NoDup (rollback : bool) (df tbl : list Row) :
  NoDup (keys tbl) -> NoDup (keys (fst (to_sql rollback df tbl))).
Proof.
  intro Hnd. pose proof (executemany_keys_NoDup df tbl Hnd) as H.
  unfold to_sql. destruct (executemany tbl df) as [tbl' [|]];
    destruct rollback; assumption.
Qed.


(** The valid singleton batch loaded twice into an empty store: one row
    after the first load, the same row after the second, which goes
    through the conflict branch. *)
Example load_singleton_twice :
  let w1 := snd (load_data true [row_A] fresh_world) in
  let w2 := snd (load_data true [row_A] w1) in
  table w1 = Some [row_A] /\ table w2 = Some [row_A] /\
  fst (load_data true [row_A] w1) = Ok tt /\
  skipn (length (events w1)) (events w2) =
  [EvConnect; EvExecuteSchema; EvPrint "Opened database successfully";
   EvToSql [row_A]; EvPrint "Data already exists in the database.";
   EvClose; EvPrint "Closed database successfully."].
Proof. repeat split; reflexivity. Qed.


(** ** The transformer *)

Lemma transform_song_well_formed (song : Song) :
  well_formed song = true ->
  exists r, projects song r /\
            forall rows, transform_song (columns_of rows) song =
                         Ok (columns_of (rows ++ [r])).
Proof.
  unfold well_formed. intro H.
  destruct (s_track song) as [t|] eqn:Et; [|discriminate].
  destruct (s_played_at song) as [[played|]|] eqn:Ep; try discriminate.
  destruct (t_name t) as [name|] eqn:En; [|discriminate].
  destruct (t_album t) as [al|] eqn:Eal; [|discriminate].
  destruct (al_artists al) as [[|a others]|] eqn:Ear; try discriminate.
  destruct (a_name a) as [artist|] eqn:Ea; [|discriminate].
  exists (mkRow name artist (Some played) (Some (substring 0 10 played))).
  split.
  - exists t, al, a, others, played. simpl. repeat split; assumption.
  - intro rows. unfold transform_song, columns_of.
    rewrite Et, Ep. simpl. rewrite En, Eal. simpl. rewrite Ear. simpl.
    rewrite Ea. simpl. rewrite !map_app. reflexivity.
Qed.

Lemma transform_loop_well_formed (items : list Song) :
  forallb well_formed items = true ->
  forall rows0,
  exists rows, Forall2 projects items rows /\
               transform_loop (columns_of rows0) items =
               Ok (columns_of (rows0 ++ rows)).
Proof.
  induction items as [|song rest IH]; intros Hwf rows0; simpl in *.
  - exists []. split; [constructor | now rewrite app_nil_r].
  - apply andb_true_iff in Hwf. destruct Hwf as [Hs Hrest].
    destruct (transform_song_well_formed song Hs) as (r & Hr & Hstep).
    destruct (IH Hrest (rows0 ++ [r])%list) as (rows & Hrows & Hloop).
    exists (r :: rows). split; [now constructor|].
    rewrite Hstep. simpl. rewrite Hloop, <- app_assoc. reflexivity.
Qed.

Lemma pd_DataFrame_columns_of (rows : list Row) :
  pd_DataFrame (columns_of rows) = Ok rows.
Proof.
  unfold pd_DataFrame, columns_of. simpl.
  induction rows as [|[a b c d] rows IH]; simpl; [reflexivity|].
  now rewrite IH.
Qed.

(** C7. On a payload whose items are all well formed, [transform_data]
    returns a frame with one row per item, in the order of the items, under
    the four columns [song_name], [artist_name], [played_at], [timestamp];
    each row holds the item's track name, the name of the first artist of
    the track's album, the item's [played_at] and its first ten
    characters. *)
Theorem transform_data_well_formed :
  forall (d : Payload) (items : list Song),
    p_items d = Some items ->
    forallb well_formed items = true ->
    exists df : DataFrame,
      transform_data (RespDict d) = Ok df /\
      length df = length items /\
      Forall2 projects items df /\
      (forall r, In r df ->
         row_cells r = [song_name r; artist_name r; played_at r; timestamp r]) /\
      columns = ["song_name"; "artist_name"; "played_at"; "timestamp"].
Proof.
  intros d items Hitems Hwf.
  destruct (transform_loop_well_formed items Hwf []) as (rows & Hrows & Hloop).
  exists rows. split; [|split; [|split; [|split]]].
  - unfold transform_data. rewrite Hitems. simpl.
    change (mkColumns [] [] [] []) with (columns_of []).
    rewrite Hloop. simpl. apply pd_DataFrame_columns_of.
  - symmetry. eapply Forall2_length. exact Hrows.
  - exact Hrows.
  - reflexivity.
  - reflexivity.
Qed.

Lemma transform_data_well_formed_witness :
  exists df : DataFrame,
    transform_data
      (RespDict (mkPayload (Some [song_of "A" "X" "2024-01-01T10:00:00Z";
                                  song_of "C" "Z" "2024-01-01T11:30:00Z"]) true))
    = Ok df /\ length df = 2%nat.
Proof.
  destruct (transform_data_well_formed
              (mkPayload (Some [song_of "A" "X" "2024-01-01T10:00:00Z";
                                song_of "C" "Z" "2024-01-01T11:30:00Z"]) true)
              [song_of "A" "X" "2024-01-01T10:00:00Z";
               song_of "C" "Z" "2024-01-01T11:30:00Z"]
              eq_refl eq_refl) as (df & Hdf & Hlen & _).
  exists df. split; assumption.
Defined.

Example transform_data_sample :
  transform_data
    (RespDict (mkPayload (Some [song_of "A" "X" "2024-01-01T10:00:00Z";
                                song_of "C" "Z" "2024-01-01T11:30:00Z"]) true))
  = Ok [row_A; row_C].
Proof. reflexivity. Qed.

(** ** The extractor *)

Lemma int_timestamp_midnight (env : Env) (d : datetime) :
  int_timestamp env (replace_midnight d) = mktime env (replace_midnight d).
Proof.
  unfold int_timestamp. cbn [microsecond replace_midnight].
  rewrite Z.add_0_r. apply Z.quot_mul. discriminate.
Qed.

(** C9. The [after=] argument sent to the service is the POSIX time of the
    local midnight that starts the day of the run (same year, month and day
    as the clock reading, time of day zero), in whole milliseconds: one
    thousand times its whole number of seconds. *)
Theorem watermark_local_midnight_ms :
  forall env : Env,
    let now := now_extract env in
    let midnight := mkDatetime (year now) (month now) (day now) 0 0 0 0 in
    watermark env = 1000 * mktime env midnight /\
    extract_recently_played env =
      (let data := current_user_recently_played env (1000 * mktime env midnight) in
       if truthy data then Ok data
       else Raise (ValueError "No data found for recent song plays.")).
Proof.
  intros env now midnight.
  assert (Hw : watermark env = 1000 * mktime env midnight).
  { unfold watermark. cbn zeta. rewrite int_timestamp_midnight.
    unfold replace_midnight. fold now. fold midnight.
    change (10 ^ 3) with 1000. apply Z.mul_comm. }
  split; [exact Hw|].
  unfold extract_recently_played. cbn zeta. rewrite Hw.
  destruct (truthy _); reflexivity.
Qed.

Example watermark_sample : watermark (sample_env []) = 1704067200000.
Proof. reflexivity. Qed.

(** C8, as stated, fails on the name of the error: when the service
    answers with nothing the extractor raises the built-in [ValueError];
    no exception of a class [ExtractionError] is raised. *)
Lemma no_data_is_value_error :
  truthy (current_user_recently_played silent_env (watermark silent_env)) = false /\
  extract_recently_played silent_env =
    Raise (ValueError "No data found for recent song plays.") /\
  ~ raises (extract_recently_played silent_env) "ExtractionError".
Proof.
  split; [reflexivity|].
  assert (H : extract_recently_played silent_env =
              Raise (ValueError "No data found for recent song plays."))
    by reflexivity.
  split; [exact H|]. rewrite H, raises_class. discriminate.
Qed.

(** C8, amended. When the answer of the service is empty ([None] or a
    dictionary without keys) the extractor raises [ValueError] with the
    message "No data found for recent song plays.", and the run ends with
    that exception before anything is printed, validated or loaded;
    otherwise the extractor returns the answer as it is. *)
Theorem extract_recently_played_result :
  forall (env : Env) (rollback : bool) (w : World),
    let data := current_user_recently_played env (watermark env) in
    (truthy data = false ->
     extract_recently_played env =
       Raise (ValueError "No data found for recent song plays.") /\
     raises (extract_recently_played env) "ValueError" /\
     main rollback env w =
       (Raise (ValueError "No data found for recent song plays."), w)) /\
    (truthy data = true -> extract_recently_played env = Ok data).
Proof.
  intros env rollback w data. split.
  - intro Hf.
    assert (H : extract_recently_played env =
                Raise (ValueError "No data found for recent song plays.")).
    { unfold extract_recently_played. cbn zeta. fold data. now rewrite Hf. }
    split; [exact H|]. split.
    + rewrite H. apply raises_class. reflexivity.
    + unfold main, bind, lift. now rewrite H.
  - intro Ht. unfold extract_recently_played. cbn zeta. fold data.
    now rewrite Ht.
Qed.

Lemma extract_recently_played_result_witness :
  main true silent_env fresh_world =
    (Raise (ValueError "No data found for recent song plays."), fresh_world) /\
  extract_recently_played (sample_env []) =
    Ok (RespDict (mkPayload (Some []) true)).
Proof.
  split.
  - exact (proj2 (proj2 (proj1 (extract_recently_played_result silent_env true fresh_world)
                           eq_refl))).
  - exact (proj2 (extract_recently_played_result (sample_env []) true fresh_world)
             eq_refl).
Defined.

(** * Further properties *)

(** ** transform_data: success, failure and the shape of its rows *)

Lemma projects_well_formed (song : Song) (r : Row) :
  projects song r -> well_formed song = true.
Proof.
  intros (t & al & a & others & played & Ht & Hn & Hal & Har & Ha & Hp & Hpl & _).
  unfold well_formed. rewrite Ht, Hp, Hpl, Hn, Hal, Har, Ha. reflexivity.
Qed.

Lemma projects_functional (song : Song) (r r' : Row) :
  projects song r -> projects song r' -> r = r'.
Proof.
  intros (t & al & a & others & played & Ht & Hn & Hal & Har & Ha & Hp & Hpl & Hts)
         (t' & al' & a' & others' & played' & Ht' & Hn' & Hal' & Har' & Ha' & Hp'
          & Hpl' & Hts').
  rewrite Ht in Ht'. injection Ht' as <-.
  rewrite Hal in Hal'. injection Hal' as <-.
  rewrite Har in Har'. injection Har' as <- <-.
  rewrite Hn in Hn'. injection Hn' as Hn'.
  rewrite Ha in Ha'. injection Ha' as Ha'.
  rewrite Hp in Hp'. injection Hp' as Hp'.
  assert (played = played') by congruence. subst played'.
  destruct r, r'. simpl in *. congruence.
Qed.

Lemma Forall2_projects_functional (items : list Song) (rows rows' : list Row) :
  Forall2 projects items rows -> Forall2 projects items rows' -> rows = rows'.
Proof.
  intro H. revert rows'. induction H as [|song r items rows Hr _ IH];
    intros rows' H'; inversion H' as [|? r' ? rows'' Hr' Hrest]; subst.
  - reflexivity.
  - f_equal; [eapply projects_functional; eassumption | now apply IH].
Qed.

Lemma Forall2_projects_well_formed (items : list Song) (rows : list Row) :
  Forall2 projects items rows -> forallb well_formed items = true.
Proof.
  induction 1 as [|song r items rows Hr _ IH]; simpl; [reflexivity|].
  rewrite (projects_well_formed song r Hr). exact IH.
Qed.

(** The loop body raises on an item that is not well formed, whatever the
    lists hold, with one of the three field-access errors. *)
Lemma transform_song_malformed (song : Song) :
  well_formed song = false ->
  exists e, In (class_of e) field_access_errors /\
            forall acc, transform_song acc song = Raise e.
Proof.
  unfold well_formed, transform_song, field_access_errors. intro H.
  destruct (s_track song) as [t|]; simpl.
  2:{ exists (LibraryError "KeyError"). simpl. auto. }
  destruct (t_name t) as [name|]; simpl.
  2:{ exists (LibraryError "KeyError"). simpl. auto. }
  destruct (t_album t) as [al|]; simpl.
  2:{ exists (LibraryError "KeyError"). simpl. auto. }
  destruct (al_artists al) as [[|a others]|]; simpl.
  3:{ exists (LibraryError "KeyError"). simpl. auto. }
  1:{ exists (LibraryError "IndexError"). simpl. auto. }
  destruct (a_name a) as [artist|]; simpl.
  2:{ exists (LibraryError "KeyError"). simpl. auto. }
  destruct (s_played_at song) as [[played|]|]; simpl.
  - discriminate.
  - exists (LibraryError "TypeError"). simpl. auto.
  - exists (LibraryError "KeyError"). simpl. auto.
Qed.

Lemma transform_loop_malformed (items : list Song) :
  forallb well_formed items = false ->
  forall rows0,
  exists e, In (class_of e) field_access_errors /\
            transform_loop (columns_of rows0) items = Raise e.
Proof.
  induction items as [|song rest IH]; intros Hwf rows0; simpl in *.
  - discriminate.
  - destruct (well_formed song) eqn:Es.
    + destruct (transform_song_well_formed song Es) as (r & _ & Hstep).
      rewrite Hstep. simpl. apply IH. exact Hwf.
    + destruct (transform_song_malformed song Es) as (e & Hc & He).
      exists e. split; [exact Hc|]. now rewrite He.
Qed.

Lemma transform_loop_first_malformed (pre post : list Song) (song : Song) (e : exn) :
  forallb well_formed pre = true ->
  (forall acc, transform_song acc song = Raise e) ->
  forall rows0,
  transform_loop (columns_of rows0) (pre ++ song :: post) = Raise e.
Proof.
  induction pre as [|s pre IH]; intros Hwf He rows0; simpl in *.
  - now rewrite He.
  - apply andb_true_iff in Hwf. destruct Hwf as [Hs Hpre].
    destruct (transform_song_well_formed s Hs) as (r & _ & Hstep).
    rewrite Hstep. simpl. now apply IH.
Qed.

Lemma transform_data_ok_projects (data : Response) (df : DataFrame) :
  transform_data data = Ok df ->
  exists d items,
    data = RespDict d /\ p_items d = Some items /\ Forall2 projects items df.
Proof.
  destruct data as [|d]; [discriminate|]. unfold transform_data.
  destruct (p_items d) as [items|] eqn:Ei; [|discriminate]. simpl.
  change (mkColumns [] [] [] []) with (columns_of []).
  destruct (forallb well_formed items) eqn:Ewf.
  - destruct (transform_loop_well_formed items Ewf []) as (rows & Hrows & Hloop).
    rewrite Hloop. simpl. rewrite pd_DataFrame_columns_of.
    intro H. injection H as <-. exists d, items. repeat split; assumption.
  - destruct (transform_loop_malformed items Ewf []) as (e & _ & Hloop).
    rewrite Hloop. discriminate.
Qed.

(** X1. [transform_data] returns a frame exactly when its argument is a
    dictionary with an ["items"] key each of whose items has all the fields
    the loop reads, and the frame is then the list of the items'
    projections, in order. *)
Theorem transform_data_ok_iff :
  forall (data : Response) (df : DataFrame),
    transform_data data = Ok df <->
    exists d items,
      data = RespDict d /\ p_items d = Some items /\ Forall2 projects items df.
Proof.
  intros data df. split.
  - apply transform_data_ok_projects.
  - intros (d & items & -> & Hitems & Hproj).
    pose proof (Forall2_projects_well_formed items df Hproj) as Hwf.
    destruct (transform_loop_well_formed items Hwf []) as (rows & Hrows & Hloop).
    unfold transform_data. rewrite Hitems. simpl.
    change (mkColumns [] [] [] []) with (columns_of []).
    rewrite Hloop. simpl. rewrite pd_DataFrame_columns_of.
    f_equal. eapply Forall2_projects_functional; eassumption.
Qed.

(** X2. When [transform_data] raises, the exception is a [KeyError], an
    [IndexError] or a [TypeError] of a field access: the frame constructor
    never refuses the four lists, which always have the same length. *)
Theorem transform_data_error_classes :
  forall (data : Response) (e : exn),
    transform_data data = Raise e ->
    In (class_of e) field_access_errors.
Proof.
  intros data e. destruct data as [|d]; simpl.
  - intro H. injection H as <-. simpl. auto.
  - destruct (p_items d) as [items|]; simpl.
    2:{ intro H. injection H as <-. simpl. auto. }
    change (mkColumns [] [] [] []) with (columns_of []).
    destruct (forallb well_formed items) eqn:Ewf.
    + destruct (transform_loop_well_formed items Ewf []) as (rows & _ & Hloop).
      rewrite Hloop. simpl. rewrite pd_DataFrame_columns_of. discriminate.
    + destruct (transform_loop_malformed items Ewf []) as (e' & Hc & Hloop).
      rewrite Hloop. simpl. intro H. injection H as <-. exact Hc.
Qed.

Lemma transform_data_error_classes_witness :
  transform_data (RespDict (mkPayload None true)) = Raise (LibraryError "KeyError") /\
  In "KeyError" field_access_errors.
Proof.
  split; [reflexivity|].
  exact (transform_data_error_classes (RespDict (mkPayload None true))
           (LibraryError "KeyError") eq_refl).
Defined.

(** X3. The first item that is not well formed decides the outcome of
    [transform_data]: the call raises what the loop body raises on that
    item, whatever the items after it are. *)
Theorem transform_data_first_malformed :
  forall (d : Payload) (pre post : list Song) (song : Song),
    p_items d = Some (pre ++ song :: post)%list ->
    forallb well_formed pre = true ->
    well_formed song = false ->
    exists e,
      transform_song (mkColumns [] [] [] []) song = Raise e /\
      transform_data (RespDict d) = Raise e /\
      forall post',
        transform_data (RespDict (mkPayload (Some (pre ++ song :: post')%list)
                                            (p_other_keys d))) = Raise e.
Proof.
  intros d pre post song Hitems Hpre Hsong.
  destruct (transform_song_malformed song Hsong) as (e & _ & He).
  exists e. split; [apply He|]. split.
  - unfold transform_data. rewrite Hitems. simpl.
    change (mkColumns [] [] [] []) with (columns_of []).
    now rewrite (transform_loop_first_malformed pre post song e Hpre He).
  - intro post'. unfold transform_data. simpl.
    change (mkColumns [] [] [] []) with (columns_of []).
    now rewrite (transform_loop_first_malformed pre post' song e Hpre He).
Qed.

Lemma transform_data_first_malformed_witness :
  transform_data
    (RespDict (mkPayload
       (Some [song_of "A" "X" "2024-01-01T10:00:00Z"; song_no_artist;
              song_null_played_at]) true))
  = Raise (LibraryError "IndexError").
Proof.
  destruct (transform_data_first_malformed
              (mkPayload
                 (Some [song_of "A" "X" "2024-01-01T10:00:00Z"; song_no_artist;
                        song_null_played_at]) true)
              [song_of "A" "X" "2024-01-01T10:00:00Z"] [song_null_played_at]
              song_no_artist eq_refl eq_refl eq_refl) as (e & He & Hd & _).
  cbv in He. injection He as <-. exact Hd.
Defined.

Lemma substring_length_le (n m : nat) (s : string) :
  (String.length (substring n m s) <= m)%nat.
Proof.
  revert n m. induction s as [|c s IH]; intros n m.
  - destruct n, m; simpl; lia.
  - destruct n as [|n]; simpl.
    + destruct m as [|m]; simpl; [lia|]. specialize (IH 0%nat m). lia.
    + apply IH.
Qed.

(** X4. Every row of a frame [transform_data] returns has a text in
    [played_at] and, in [timestamp], the first ten characters of that text
    (at most ten characters): of the four columns only [song_name] and
    [artist_name] can hold a null. *)
Theorem transform_data_rows :
  forall (data : Response) (df : DataFrame) (r : Row),
    transform_data data = Ok df ->
    In r df ->
    exists played ts,
      played_at r = Some played /\
      timestamp r = Some ts /\
      ts = substring 0 10 played /\
      (String.length ts <= 10)%nat /\
      (forall c, In c (row_cells r) -> c = None ->
                 song_name r = None \/ artist_name r = None).
Proof.
  intros data df r Hok Hin.
  apply transform_data_ok_projects in Hok.
  destruct Hok as (d & items & _ & _ & Hproj).
  assert (Hr : exists song, projects song r).
  { clear - Hproj Hin. induction Hproj as [|song r' items rows Hp _ IH].
    - contradiction.
    - destruct Hin as [<-|Hin]; [eauto | now apply IH]. }
  destruct Hr as (song & t & al & a & others & played & _ & _ & _ & _ & _ & _
                  & Hpl & Hts).
  exists played, (substring 0 10 played).
  split; [exact Hpl|]. split; [exact Hts|]. split; [reflexivity|]. split.
  - apply substring_length_le.
  - intros c Hc ->. unfold row_cells in Hc. simpl in Hc.
    destruct Hc as [Hc|[Hc|[Hc|[Hc|[]]]]]; auto; congruence.
Qed.

Lemma transform_data_rows_witness :
  exists played ts,
    played_at row_A = Some played /\ timestamp row_A = Some ts /\
    ts = substring 0 10 played.
Proof.
  destruct (transform_data_rows
              (RespDict (mkPayload (Some [song_of "A" "X" "2024-01-01T10:00:00Z";
                                          song_of "C" "Z" "2024-01-01T11:30:00Z"])
                                   true))
              [row_A; row_C] row_A eq_refl (or_introl eq_refl))
    as (played & ts & H1 & H2 & H3 & _).
  exists played, ts. repeat split; assumption.
Defined.

(** ** validate_data: effects, outcomes, clock and row order *)

(** X5. [validate_data] never touches the database: whatever the batch
    and the outcome, the table and the connection are as before, and the
    only output is the line "No songs downloaded" on the empty batch. *)
Theorem validate_data_frame :
  forall (now : datetime) (df : DataFrame) (w : World),
    let w' := snd (validate_data now df w) in
    table w' = table w /\
    conn_open w' = conn_open w /\
    events w' =
      (events w ++ (if empty df then [EvPrint "No songs downloaded"] else []))%list /\
    loader_invoked w w' = false.
Proof.
  intros now df w w'. subst w'. destruct df as [|r df].
  - rewrite validate_data_empty. cbn [snd table conn_open events empty].
    repeat split. apply loader_not_invoked_after. reflexivity.
  - rewrite validate_data_world by discriminate. cbn [empty].
    rewrite app_nil_r. repeat split.
    unfold loader_invoked. rewrite skipn_all. reflexivity.
Qed.

(** X6. The outcomes of [validate_data]: it returns false on the empty
    batch and true otherwise, or raises one of its three exceptions or the
    parser's [ValueError].  The parser's [TypeError] on a null timestamp
    never surfaces: the null check comes first. *)
Theorem validate_data_outcomes :
  forall (now : datetime) (df : DataFrame) (w : World),
    match fst (validate_data now df w) with
    | Ok b => b = negb (empty df)
    | Raise e =>
        df <> [] /\
        In e [PrimaryKeyError "Primary key check is violated.";
              NullValuesError "Null values found in DataFrame.";
              InvalidTimestampError
                "At least one song does not have today's timestamp";
              LibraryError "ValueError"]
    end.
Proof.
  intros now df w. destruct df as [|r0 df0]; [reflexivity|].
  remember (r0 :: df0) as df eqn:Edf.
  assert (Hne : df <> []) by (subst df; discriminate).
  replace (empty df) with false by (subst df; reflexivity).
  clear Edf. rewrite validate_data_checks by assumption.
  destruct (is_unique (map played_at df)); cbn [negb]; [|simpl; auto].
  destruct (isnull_values_any df) eqn:En; [simpl; auto|].
  pose proof (proj1 (isnull_values_any_false df) En) as Hnn.
  destruct (any_not_today _ _) as [[|]|e] eqn:Ea; [simpl; auto 6|reflexivity|].
  split; [assumption|].
  assert (He : e = LibraryError "ValueError"); [|subst e; simpl; auto 6].
  clear - Hnn Ea. induction df as [|r df IH]; simpl in Ea; [discriminate|].
  destruct (strptime (timestamp r)) as [d|e'] eqn:Es.
  - destruct (negb (datetime_eqb d (replace_midnight now))); [discriminate|].
    apply IH; [|exact Ea]. intros r' Hin. apply Hnn. now right.
  - injection Ea as <-. destruct (timestamp r) as [s|] eqn:Et.
    + now apply strptime_text_error in Es.
    + exfalso. apply (Hnn r); [now left|]. unfold row_cells. rewrite Et.
      simpl. auto.
Qed.

Lemma replace_midnight_same_date (a b : datetime) :
  same_date a b -> replace_midnight a = replace_midnight b.
Proof. intros (Hy & Hm & Hd). unfold replace_midnight. now rewrite Hy, Hm, Hd. Qed.

Lemma replace_midnight_eq_same_date (a b : datetime) :
  replace_midnight a = replace_midnight b -> same_date a b.
Proof.
  unfold replace_midnight. intro H. injection H as Hy Hm Hd. now repeat split.
Qed.

(** X7. The verdict of [validate_data] depends on the clock only through
    the calendar date: two readings on the same day give the same result
    and output whatever their times of day, and a batch accepted at one
    reading is refused with [InvalidTimestampError] at any reading on
    another day. *)
Theorem validate_data_date_only :
  forall (now now' : datetime) (df : DataFrame) (w : World),
    (same_date now now' -> validate_data now df w = validate_data now' df w) /\
    (fst (validate_data now df w) = Ok true ->
     ~ same_date now now' ->
     fst (validate_data now' df w) =
     Raise (InvalidTimestampError
              "At least one song does not have today's timestamp")).
Proof.
  intros now now' df w. split.
  - intro Hsame. unfold validate_data.
    now rewrite (replace_midnight_same_date now now' Hsame).
  - intros Hv Hdiff. apply validate_data_true_iff in Hv.
    destruct Hv as (Hne & Hnd & Hnn & Hf).
    rewrite validate_data_checks by assumption.
    apply is_unique_NoDup in Hnd. apply isnull_values_any_false in Hnn.
    rewrite Hnd, Hnn. cbn [negb].
    destruct df as [|r rest]; [contradiction|].
    assert (E : any_not_today (replace_midnight now')
                  (map timestamp (r :: rest)) = Ok true).
    { apply (any_not_today_stale (replace_midnight now') (replace_midnight now)
               [] (map timestamp rest) (timestamp r)).
      - constructor.
      - apply Hf. now left.
      - intro E. apply Hdiff. now apply replace_midnight_eq_same_date. }
    now rewrite E.
Qed.

Lemma validate_data_date_only_witness :
  validate_data sample_now [row_A; row_C] fresh_world =
  validate_data (mkDatetime 2024 1 1 0 0 0 0) [row_A; row_C] fresh_world /\
  fst (validate_data (mkDatetime 2024 1 2 0 5 0 0) [row_A; row_C] fresh_world) =
  Raise (InvalidTimestampError
           "At least one song does not have today's timestamp").
Proof.
  split.
  - apply (proj1 (validate_data_date_only sample_now (mkDatetime 2024 1 1 0 0 0 0)
                    [row_A; row_C] fresh_world)).
    repeat split.
  - apply (proj2 (validate_data_date_only sample_now (mkDatetime 2024 1 2 0 5 0 0)
                    [row_A; row_C] fresh_world)).
    + reflexivity.
    + intros (_ & _ & Hd). discriminate.
Defined.

(** X8. Whether [validate_data] accepts a batch does not depend on the
    order of its rows: a batch is accepted exactly when each of its
    reorderings is. *)
Theorem validate_data_accepts_any_order :
  forall (now : datetime) (df df' : DataFrame) (w : World),
    Permutation df df' ->
    (fst (validate_data now df w) = Ok true <->
     fst (validate_data now df' w) = Ok true).
Proof.
  assert (Hdir : forall now df df' w, Permutation df df' ->
            fst (validate_data now df w) = Ok true ->
            fst (validate_data now df' w) = Ok true).
  { intros now df df' w Hp Hv. apply validate_data_true_iff in Hv.
    destruct Hv as (Hne & Hnd & Hnn & Hf). apply validate_data_true_iff.
    split; [|split; [|split]].
    - intro E. subst df'. apply Permutation_sym, Permutation_nil in Hp.
      contradiction.
    - eapply Permutation_NoDup; [|exact Hnd]. now apply Permutation_map.
    - intros r Hin. apply Hnn. eapply Permutation_in; [|exact Hin].
      now apply Permutation_sym.
    - intros r Hin. apply Hf. eapply Permutation_in; [|exact Hin].
      now apply Permutation_sym. }
  intros now df df' w Hp. split.
  - now apply Hdir.
  - apply Hdir. now apply Permutation_sym.
Qed.

Lemma validate_data_accepts_any_order_witness :
  fst (validate_data sample_now [row_A; row_C] fresh_world) = Ok true <->
  fst (validate_data sample_now [row_C; row_A] fresh_world) = Ok true.
Proof.
  apply (validate_data_accepts_any_order sample_now [row_A; row_C] [row_C; row_A]).
  apply perm_swap.
Defined.

(** ** load_data: what a call stores *)

Lemma keys_cons (r : Row) (rows : list Row) :
  keys (r :: rows) =
  (match played_at r with Some k => [k] | None => [] end ++ keys rows)%list.
Proof. reflexivity. Qed.

(** What a bulk insert adds is a prefix of the batch: the whole batch when
    no row is refused, a proper prefix otherwise. *)
Lemma executemany_prefix (rows tbl : list Row) :
  exists n,
    fst (executemany tbl rows) = (tbl ++ firstn n rows)%list /\
    (if snd (executemany tbl rows) then (n < length rows)%nat
     else n = length rows).
Proof.
  revert tbl. induction rows as [|r rest IH]; intro tbl; simpl.
  - exists 0%nat. now rewrite app_nil_r.
  - destruct (pk_conflict tbl r).
    + exists 0%nat. simpl. rewrite app_nil_r. split; [reflexivity | lia].
    + destruct (IH (tbl ++ [r])%list) as (n & Hn & Hs). exists (S n). split.
      * rewrite Hn, <- app_assoc. reflexivity.
      * destruct (snd (executemany (tbl ++ [r]) rest)); simpl; lia.
Qed.

(** A bulk insert goes through exactly when the keys of the batch are
    pairwise distinct and none of them is stored. *)
Lemma executemany_accepts_iff (rows tbl : list Row) :
  snd (executemany tbl rows) = false <-> fresh_keys rows tbl.
Proof.
  unfold fresh_keys. revert tbl. induction rows as [|r rest IH]; intro tbl.
  - simpl. split; [|reflexivity]. intros _. split; [constructor | intros k []].
  - simpl executemany. rewrite keys_cons.
    destruct (played_at r) as [k|] eqn:Hk.
    + destruct (pk_conflict tbl r) eqn:E.
      * apply (pk_conflict_In_keys tbl r k Hk) in E. simpl. split; [discriminate|].
        intros [_ Hd]. exfalso. apply (Hd k); [now left | assumption].
      * assert (Hnot : ~ In k (keys tbl)).
        { intro Hin. apply (pk_conflict_In_keys tbl r k Hk) in Hin. congruence. }
        rewrite IH, keys_app. unfold keys at 3. simpl. rewrite Hk. simpl.
        split.
        -- intros [Hnd Hd]. split.
           ++ constructor; [|assumption]. intro Hin.
              apply (Hd k Hin). apply in_or_app. right. now left.
           ++ intros k' [<-|Hin]; [assumption|]. intro Hs.
              apply (Hd k' Hin). apply in_or_app. now left.
        -- intros [Hnd Hd]. inversion Hnd as [|? ? Hk' Hnd']; subst. split.
           ++ assumption.
           ++ intros k' Hin Hs. apply in_app_or in Hs.
              destruct Hs as [Hs|[<-|[]]]; [|contradiction].
              apply (Hd k'); [now right | assumption].
    + assert (E : pk_conflict tbl r = false) by (unfold pk_conflict; now rewrite Hk).
      rewrite E, IH, keys_app. unfold keys at 3. simpl. rewrite Hk. simpl.
      rewrite app_nil_r. reflexivity.
Qed.

Lemma load_data_table (rollback : bool) (df : DataFrame) (w : World) :
  table (snd (load_data rollback df w)) =
  Some (fst (to_sql rollback df (stored w))).
Proof. unfold load_data. rewrite load_data_with_run. reflexivity. Qed.


(** X9. [load_data] only appends: after a call the table exists, the rows
    found are still there at their places, and what was added is a prefix
    of the batch in batch order (all of it or nothing when a refused insert
    is rolled back); the primary-key constraint, if it held, still
    holds. *)
Theorem load_data_append_only :
  forall (rollback : bool) (df : DataFrame) (w : World),
    exists n,
      (n <= length df)%nat /\
      table (snd (load_data rollback df w)) = Some (stored w ++ firstn n df)%list /\
      (rollback = true -> n = 0%nat \/ n = length df) /\
      (NoDup (keys (stored w)) ->
       NoDup (keys (stored (snd (load_data rollback df w))))).
Proof.
  intros rollback df w.
  destruct (executemany_prefix df (stored w)) as (n & Hn & Hs).
  assert (Hpk : NoDup (keys (stored w)) ->
                NoDup (keys (stored (snd (load_data rollback df w))))).
  { intro Hnd. unfold stored. rewrite load_data_table. fold (stored w).
    cbn [create_table_if_not_exists]. now apply to_sql_keys_NoDup. }
  rewrite load_data_table. unfold to_sql.
  destruct (executemany (stored w) df) as [tbl' refused].
  cbn [fst snd] in Hn, Hs. subst tbl'.
  destruct refused, rollback; cbn [fst].
  - exists 0%nat. simpl. rewrite app_nil_r. repeat split; auto; lia.
  - exists n. repeat split; auto; try lia; discriminate.
  - exists n. repeat split; auto; lia.
  - exists n. repeat split; auto; try lia; discriminate.
Qed.




(** ** main: the stages composed *)

Lemma validate_data_fst_indep (now : datetime) (df : DataFrame) (w w' : World) :
  fst (validate_data now df w) = fst (validate_data now df w').
Proof.
  destruct df as [|r df]; [reflexivity|].
  rewrite !validate_data_checks by discriminate. reflexivity.
Qed.

Lemma main_extract_raises (rollback : bool) (env : Env) (w : World) (e : exn) :
  extract_recently_played env = Raise e -> main rollback env w = (Raise e, w).
Proof. intro He. unfold main, bind, lift. now rewrite He. Qed.

Lemma main_transform_raises (rollback : bool) (env : Env) (w : World)
  (data : Response) (e : exn) :
  extract_recently_played env = Ok data -> transform_data data = Raise e ->
  main rollback env w = (Raise e, w).
Proof. intros He Ht. unfold main, bind, lift. now rewrite He, Ht. Qed.

Lemma main_empty_batch (rollback : bool) (env : Env) (w : World) (data : Response) :
  extract_recently_played env = Ok data -> transform_data data = Ok [] ->
  main rollback env w =
  (Ok tt, mkWorld (table w) (conn_open w)
            (events w ++ [EvPrintFrame []; EvPrint "No songs downloaded"])).
Proof.
  intros He Ht. rewrite (main_from_batch _ _ _ _ _ He Ht). cbn.
  now rewrite <- app_assoc.
Qed.

(** A run on an accepted batch, spelled out. *)
Lemma main_accepted_run (rollback : bool) (env : Env) (w : World)
  (data : Response) (df : DataFrame) :
  extract_recently_played env = Ok data -> transform_data data = Ok df ->
  fst (validate_data (now_validate env) df w) = Ok true ->
  main rollback env w =
  (Ok tt,
   mkWorld (Some (fst (to_sql rollback df (stored w)))) false
     (events w ++
      [EvPrintFrame df; EvConnect; EvExecuteSchema;
       EvPrint "Opened database successfully"; EvToSql df] ++
      (if handled (snd (to_sql rollback df (stored w)))
       then [EvPrint "Data already exists in the database."] else []) ++
      [EvClose; EvPrint "Closed database successfully.";
       EvPrint "ETL process completed."])).
Proof.
  intros He Ht Hv. rewrite (main_from_batch _ _ _ _ _ He Ht).
  set (w1 := mkWorld _ _ _).
  assert (Hne : df <> []).
  { apply validate_data_true_iff in Hv. tauto. }
  pose proof (validate_data_world (now_validate env) df w1 Hne) as Hw.
  rewrite (validate_data_fst_indep _ _ w w1) in Hv.
  unfold bind at 1. destruct (validate_data (now_validate env) df w1) as [r w2].
  simpl in Hw, Hv. subst r w2.
  unfold bind, load_data. rewrite load_data_with_run. cbn zeta.
  unfold stored, w1. cbn [table events conn_open print emit].
  assert (Hok : forall out : list Row * option exn,
             out = to_sql rollback df (create_table_if_not_exists (table w)) ->
             match snd out with
             | Some e => if handled (snd out) then Ok tt else Raise e
             | None => @Ok unit tt
             end = Ok tt).
  { intros out ->. unfold to_sql.
    destruct (executemany _ df) as [tbl' [|]]; reflexivity. }
  rewrite (Hok _ eq_refl). cbn [table events conn_open].
  unfold print, emit. cbn [table events conn_open].
  f_equal. f_equal. destruct (handled _); rewrite <- !app_assoc; reflexivity.
Qed.

Lemma In_keys (k : string) (rows : list Row) :
  In k (keys rows) <-> In (Some k) (map played_at rows).
Proof.
  induction rows as [|r rows IH]; [simpl; tauto|].
  rewrite keys_cons, in_app_iff, IH. cbn [map In].
  destruct (played_at r) as [k'|]; simpl; intuition congruence.
Qed.

Lemma NoDup_keys (rows : list Row) :
  NoDup (map played_at rows) -> NoDup (keys rows).
Proof.
  induction rows as [|r rows IH]; intro H; [constructor|].
  cbn [map] in H. inversion H as [|? ? Hn Hd]; subst. rewrite keys_cons.
  destruct (played_at r) as [k|]; simpl; [|now apply IH].
  constructor; [|now apply IH]. intro Hin. apply Hn. now apply In_keys.
Qed.

Lemma validate_data_false_empty (now : datetime) (df : DataFrame) (w : World) :
  fst (validate_data now df w) = Ok false -> df = [].
Proof.
  destruct df as [|r df]; [reflexivity|]. intro H.
  rewrite validate_data_checks in H by discriminate.
  destruct (negb _); [discriminate|].
  destruct (isnull_values_any _); [discriminate|].
  destruct (any_not_today _ _) as [[|]|e]; discriminate.
Qed.

(** The five ways a run can go. *)
Lemma main_cases (rollback : bool) (env : Env) (w : World) :
  (exists e, extract_recently_played env = Raise e /\
             main rollback env w = (Raise e, w)) \/
  (exists data e, extract_recently_played env = Ok data /\
                  transform_data data = Raise e /\
                  main rollback env w = (Raise e, w)) \/
  (exists data, extract_recently_played env = Ok data /\
                transform_data data = Ok [] /\
                main rollback env w =
                (Ok tt, mkWorld (table w) (conn_open w)
                          (events w ++ [EvPrintFrame [];
                                        EvPrint "No songs downloaded"]))) \/
  (exists data df e, extract_recently_played env = Ok data /\
                     transform_data data = Ok df /\ df <> [] /\
                     fst (validate_data (now_validate env) df w) = Raise e /\
                     main rollback env w =
                     (Raise e, mkWorld (table w) (conn_open w)
                                 (events w ++ [EvPrintFrame df]))) \/
  (exists data df, extract_recently_played env = Ok data /\
                   transform_data data = Ok df /\
                   fst (validate_data (now_validate env) df w) = Ok true /\
                   main rollback env w =
                   (Ok tt,
                    mkWorld (Some (fst (to_sql rollback df (stored w)))) false
                      (events w ++
                       [EvPrintFrame df; EvConnect; EvExecuteSchema;
                        EvPrint "Opened database successfully"; EvToSql df] ++
                       (if handled (snd (to_sql rollback df (stored w)))
                        then [EvPrint "Data already exists in the database."]
                        else []) ++
                       [EvClose; EvPrint "Closed database successfully.";
                        EvPrint "ETL process completed."]))).
Proof.
  destruct (extract_recently_played env) as [data|e] eqn:He.
  2:{ left. exists e. split; [reflexivity | now apply main_extract_raises]. }
  destruct (transform_data data) as [df|e] eqn:Ht.
  2:{ right. left. exists data, e. repeat split; try assumption.
      now apply main_transform_raises with (data := data). }
  destruct (fst (validate_data (now_validate env) df w)) as [[|]|e] eqn:Hv.
  - do 4 right. exists data, df. repeat split; try assumption.
    now apply main_accepted_run with (data := data).
  - apply validate_data_false_empty in Hv. subst df.
    right. right. left. exists data. repeat split; try assumption.
    now apply main_empty_batch with (data := data).
  - assert (Hne : df <> []) by (intro E; subst df; discriminate).
    do 3 right. left. exists data, df, e. repeat split; try assumption.
    now apply main_gate_raises with (data := data).
Qed.

Lemma loader_invoked_refl (w : World) : loader_invoked w w = false.
Proof. unfold loader_invoked. now rewrite skipn_all. Qed.

(** X12. A run enters [load_data] exactly when the extractor returned a
    response, the transformer turned it into a frame and [validate_data]
    returned true on that frame: no database operation happens on any
    other run. *)
Theorem main_loads_iff_accepted :
  forall (rollback : bool) (env : Env) (w : World),
    loader_invoked w (snd (main rollback env w)) = true <->
    exists data df,
      extract_recently_played env = Ok data /\
      transform_data data = Ok df /\
      fst (validate_data (now_validate env) df w) = Ok true.
Proof.
  intros rollback env w.
  destruct (main_cases rollback env w)
    as [(e & He & Hm)|[(data & e & He & Ht & Hm)|[(data & He & Ht & Hm)|
        [(data & df & e & He & Ht & Hne & Hv & Hm)|(data & df & He & Ht & Hv & Hm)]]]];
    rewrite Hm; cbn [snd].
  - rewrite loader_invoked_refl. split; [discriminate|].
    intros (d & f & He' & _). congruence.
  - rewrite loader_invoked_refl. split; [discriminate|].
    intros (d & f & He' & Ht' & _). congruence.
  - rewrite loader_not_invoked_after by reflexivity. split; [discriminate|].
    intros (d & f & He' & Ht' & Hv'). rewrite He in He'. injection He' as <-.
    rewrite Ht in Ht'. injection Ht' as <-. discriminate.
  - rewrite loader_not_invoked_after by reflexivity. split; [discriminate|].
    intros (d & f & He' & Ht' & Hv'). rewrite He in He'. injection He' as <-.
    rewrite Ht in Ht'. injection Ht' as <-. congruence.
  - split; [|intros _].
    + intros _. exists data, df. repeat split; assumption.
    + unfold loader_invoked. cbn [events]. rewrite skipn_length_app. reflexivity.
Qed.

(** X13. A run whose batch is accepted and none of whose keys is stored
    yet returns normally, leaves the connection closed, has appended
    exactly the batch, in order, to the rows found, and has printed the
    frame, the loader's two lines and "ETL process completed.". *)
Theorem main_appends_fresh_batch :
  forall (rollback : bool) (env : Env) (w : World)
         (data : Response) (df : DataFrame),
    extract_recently_played env = Ok data ->
    transform_data data = Ok df ->
    fst (validate_data (now_validate env) df w) = Ok true ->
    (forall k, In k (keys df) -> ~ In k (keys (stored w))) ->
    main rollback env w =
    (Ok tt,
     mkWorld (Some (stored w ++ df)%list) false
       (events w ++
        [EvPrintFrame df; EvConnect; EvExecuteSchema;
         EvPrint "Opened database successfully"; EvToSql df;
         EvClose; EvPrint "Closed database successfully.";
         EvPrint "ETL process completed."])).
Proof.
  intros rollback env w data df He Ht Hv Hnew.
  rewrite (main_accepted_run rollback env w data df He Ht Hv).
  assert (Hfresh : fresh_keys df (stored w)).
  { split; [|exact Hnew]. apply NoDup_keys.
    apply validate_data_true_iff in Hv. tauto. }
  apply executemany_accepts_iff in Hfresh.
  destruct (executemany_prefix df (stored w)) as (n & Hn & Hs).
  unfold to_sql. destruct (executemany (stored w) df) as [tbl' refused].
  cbn [fst snd] in *. subst refused tbl' n. rewrite firstn_all. reflexivity.
Qed.

Lemma main_appends_fresh_batch_witness :
  main true (sample_env [song_of "A" "X" "2024-01-01T10:00:00Z";
                         song_of "C" "Z" "2024-01-01T11:30:00Z"]) fresh_world =
  (Ok tt,
   mkWorld (Some [row_A; row_C]) false
     [EvPrintFrame [row_A; row_C]; EvConnect; EvExecuteSchema;
      EvPrint "Opened database successfully"; EvToSql [row_A; row_C];
      EvClose; EvPrint "Closed database successfully.";
      EvPrint "ETL process completed."]).
Proof.
  apply (main_appends_fresh_batch true
           (sample_env [song_of "A" "X" "2024-01-01T10:00:00Z";
                        song_of "C" "Z" "2024-01-01T11:30:00Z"]) fresh_world
           (RespDict (mkPayload (Some [song_of "A" "X" "2024-01-01T10:00:00Z";
                                       song_of "C" "Z" "2024-01-01T11:30:00Z"]) true))
           [row_A; row_C] eq_refl eq_refl eq_refl).
  intros k _ [].
Defined.




(** X16. An answer of the service that has an ["items"] key holding no
    item is not an extraction error: the extractor returns it, the frame is
    empty, and the run ends normally after printing the empty frame and
    "No songs downloaded", the database untouched. *)
Theorem main_no_items :
  forall (rollback : bool) (env : Env) (w : World) (d : Payload),
    current_user_recently_played env (watermark env) = RespDict d ->
    p_items d = Some [] ->
    extract_recently_played env = Ok (RespDict d) /\
    main rollback env w =
    (Ok tt, mkWorld (table w) (conn_open w)
              (events w ++ [EvPrintFrame []; EvPrint "No songs downloaded"])).
Proof.
  intros rollback env w d Hresp Hitems.
  assert (He : extract_recently_played env = Ok (RespDict d)).
  { unfold extract_recently_played. cbn zeta. rewrite Hresp.
    unfold truthy. now rewrite Hitems. }
  split; [exact He|].
  apply main_empty_batch with (data := RespDict d); [exact He|].
  unfold transform_data. now rewrite Hitems.
Qed.

Lemma main_no_items_witness :
  main true (mkEnv utc_mktime sample_now sample_now
               (fun _ => RespDict (mkPayload (Some []) false))) fresh_world =
  (Ok tt, mkWorld None false [EvPrintFrame []; EvPrint "No songs downloaded"]).
Proof.
  exact (proj2 (main_no_items true
                  (mkEnv utc_mktime sample_now sample_now
                     (fun _ => RespDict (mkPayload (Some []) false)))
                  fresh_world (mkPayload (Some []) false) eq_refl eq_refl)).
Defined.

(** X17. Every row a run hands to [load_data] has a title and an artist
    name that are not null and a [played_at] text whose first ten
    characters, kept in [timestamp], read as the date of the run. *)
Theorem main_loaded_rows :
  forall (env : Env) (w : World) (data : Response) (df : DataFrame) (r : Row),
    extract_recently_played env = Ok data ->
    transform_data data = Ok df ->
    fst (validate_data (now_validate env) df w) = Ok true ->
    In r df ->
    exists title artist played,
      song_name r = Some title /\
      artist_name r = Some artist /\
      played_at r = Some played /\
      timestamp r = Some (substring 0 10 played) /\
      strptime_text (substring 0 10 played) =
        Ok (replace_midnight (now_validate env)).
Proof.
  intros env w data df r _ Ht Hv Hin.
  apply validate_data_true_iff in Hv. destruct Hv as (_ & _ & Hnn & Hf).
  specialize (Hnn r Hin). specialize (Hf r Hin). unfold parses_to in Hf.
  unfold row_cells in Hnn. simpl in Hnn.
  apply transform_data_ok_projects in Ht.
  destruct Ht as (d & items & _ & _ & Hproj).
  assert (Hr : exists song, projects song r).
  { clear - Hproj Hin. induction Hproj as [|song r' items rows Hp _ IH].
    - contradiction.
    - destruct Hin as [<-|Hin]; [eauto | now apply IH]. }
  destruct Hr as (song & t & al & a & others & played & _ & _ & _ & _ & _ & _
                  & Hpl & Hts).
  destruct (song_name r) as [title|] eqn:Es; [|tauto].
  destruct (artist_name r) as [artist|] eqn:Ea; [|tauto].
  exists title, artist, played. repeat split; try assumption.
  rewrite Hts in Hf. exact Hf.
Qed.

Lemma main_loaded_rows_witness :
  exists title artist played,
    song_name row_C = Some title /\ artist_name row_C = Some artist /\
    played_at row_C = Some played /\
    timestamp row_C = Some (substring 0 10 played).
Proof.
  destruct (main_loaded_rows
              (sample_env [song_of "A" "X" "2024-01-01T10:00:00Z";
                           song_of "C" "Z" "2024-01-01T11:30:00Z"])
              fresh_world
              (RespDict (mkPayload (Some [song_of "A" "X" "2024-01-01T10:00:00Z";
                                          song_of "C" "Z" "2024-01-01T11:30:00Z"])
                                   true))
              [row_A; row_C] row_C eq_refl eq_refl eq_refl
              (or_intror (or_introl eq_refl)))
    as (title & artist & played & H1 & H2 & H3 & H4 & _).
  exists title, artist, played. repeat split; assumption.
Defined.

Lemma to_sql_prefix (rollback : bool) (df tbl : list Row) :
  exists n, fst (to_sql rollback df tbl) = (tbl ++ firstn n df)%list.
Proof.
  destruct (executemany_prefix df tbl) as (n & Hn & _). unfold to_sql.
  destruct (executemany tbl df) as [tbl' refused]. cbn [fst] in Hn. subst tbl'.
  destruct refused, rollback; cbn [fst]; try (now exists n).
  exists 0%nat. simpl. now rewrite app_nil_r.
Qed.

(** X18. No run removes or changes a stored row: after [main], however it
    ends, the rows found are still there at their places, what was added
    is a prefix of the run's batch, and the primary-key constraint, if it
    held, still holds. *)
Theorem main_append_only :
  forall (rollback : bool) (env : Env) (w : World),
    (exists extra,
        stored (snd (main rollback env w)) = (stored w ++ extra)%list /\
        forall data df,
          extract_recently_played env = Ok data ->
          transform_data data = Ok df ->
          exists n, extra = firstn n df) /\
    (NoDup (keys (stored w)) ->
     NoDup (keys (stored (snd (main rollback env w))))).
Proof.
  intros rollback env w.
  assert (Hsame : forall w', table w' = table w ->
            (exists extra,
                stored w' = (stored w ++ extra)%list /\
                forall data df,
                  extract_recently_played env = Ok data ->
                  transform_data data = Ok df ->
                  exists n, extra = firstn n df) /\
            (NoDup (keys (stored w)) -> NoDup (keys (stored w')))).
  { intros w' Ht. unfold stored. rewrite Ht. split; [|auto].
    exists []. split; [now rewrite app_nil_r|]. intros data df _ _.
    now exists 0%nat. }
  destruct (main_cases rollback env w)
    as [(e & He & Hm)|[(data & e & He & Ht & Hm)|[(data & He & Ht & Hm)|
        [(data & df & e & He & Ht & Hne & Hv & Hm)|(data & df & He & Ht & Hv & Hm)]]]];
    rewrite Hm; cbn [snd]; try (apply Hsame; reflexivity).
  unfold stored at 1 4. cbn [table create_table_if_not_exists]. split.
  - destruct (to_sql_prefix rollback df (stored w)) as (n & Hn).
    exists (firstn n df). split; [exact Hn|].
    intros data' df' He' Ht'. rewrite He in He'. injection He' as <-.
    rewrite Ht in Ht'. injection Ht' as <-. now exists n.
  - apply to_sql_keys_NoDup.
Qed.
